(** * Search-and-scrape server: a shallow embedding of [main.py]

    The two tools of the server, [search] and [scrape], are embedded as
    functions over an explicit environment (process environment, HTTP
    session, HTML and JSON parsers) and an explicit trace of the effects
    they perform.  Python [str] values are [string]s, one [ascii] per
    character; Python [dict]s with string keys are [gmap string _]. *)

From Stdlib Require Import ZArith Ascii String List Lia.
From stdpp Require Import gmap strings list pretty.

Set Warnings "-register-all".

(** ** Python strings *)

Module Str.

Definition LF : string := String "010"%char EmptyString.
Definition QUOTE : string := String "034"%char EmptyString.

(** [str.isspace] on the characters below 256: TAB..CR, FS..US, SPACE,
    NEL and NBSP. *)
Definition isspace (c : ascii) : bool :=
  let n := N_of_ascii c in
  ((9 <=? n) && (n <=? 13) || (28 <=? n) && (n <=? 32)
   || (n =? 133) || (n =? 160))%N.

Fixpoint lstrip (s : string) : string :=
  match s with
  | EmptyString => EmptyString
  | String c s' => if isspace c then lstrip s' else s
  end.

Fixpoint rstrip (s : string) : string :=
  match s with
  | EmptyString => EmptyString
  | String c s' =>
      match rstrip s' with
      | EmptyString => if isspace c then EmptyString else String c EmptyString
      | r => String c r
      end
  end.

(** [s.strip()] *)
Definition strip (s : string) : string := lstrip (rstrip s).

(** [sep.join(l)] *)
Definition join (sep : string) (l : list string) : string :=
  String.concat sep l.

(** [s[:n]] *)
Definition slice_to (n : nat) (s : string) : string := substring 0 n s.

(** [len(s) == 0] *)
Definition is_empty (s : string) : bool :=
  match s with EmptyString => true | String _ _ => false end.

(** [sub in s] *)
Fixpoint contains (sub s : string) : bool :=
  String.prefix sub s
  || match s with
     | EmptyString => false
     | String _ s' => contains sub s'
     end.

(** Every character is whitespace. *)
Fixpoint all_space (s : string) : bool :=
  match s with
  | EmptyString => true
  | String c s' => isspace c && all_space s'
  end.

End Str.

(** ** The document tree of BeautifulSoup

    The part of [bs4] that [scrape] calls, after the library's documented
    behaviour. *)

Module Bs4.

(** The classes of string nodes ([NavigableString] and its subclasses). *)
Inductive string_class :=
| NavigableString | CData | Comment | Declaration | Doctype
| ProcessingInstruction | Script | Stylesheet | TemplateString.

Global Instance string_class_eq_dec : EqDecision string_class.
Proof. solve_decision. Defined.

(** A page element.  [Tag] carries the identity of the Python object
    ([ident]); the loop of [scrape] holds references to elements while
    it mutates the tree they live in. *)
Inductive node :=
| Tag (ident : nat) (name : string) (attrs : gmap string string)
      (contents : list node)
| Text (cls : string_class) (s : string).

(** The [BeautifulSoup] object, given by its [contents]. *)
Abbreviation soup := (list node).

(** [Tag.descendants]: every element below, in document order. *)
Fixpoint subtree (n : node) : list node :=
  n :: match n with
       | Tag _ _ _ cs => flat_map subtree cs
       | Text _ _ => []
       end.

Definition descendants (t : soup) : list node := flat_map subtree t.

(** [attrs] filter of [find]/[find_all]: every requested attribute has
    the requested value. *)
Definition attrs_match (want : list (string * string))
    (have : gmap string string) : bool :=
  forallb (fun kv => bool_decide (have !! kv.1 = Some kv.2)) want.

Definition matches (names : list string) (want : list (string * string))
    (n : node) : bool :=
  match n with
  | Tag _ nm a _ => bool_decide (nm ∈ names) && attrs_match want a
  | Text _ _ => false
  end.

(** [soup.find_all(names, attrs=want)], also written [soup(names)]. *)
Definition find_all (names : list string) (want : list (string * string))
    (t : soup) : list node :=
  filter (fun n => matches names want n = true) (descendants t).

(** [soup.find(name, attrs=want)]: the first match or [None]. *)
Definition find (name : string) (want : list (string * string))
    (t : soup) : option node :=
  head (find_all [name] want t).

(** Detaching the object [i] from the tree, wherever it sits: what is
    left of each element is nothing (it was [i]) or the element with
    [i] detached below it. *)
Fixpoint extract_node (i : nat) (n : node) : list node :=
  match n with
  | Tag j nm a cs =>
      if bool_decide (j = i) then []
      else [Tag j nm a (flat_map (extract_node i) cs)]
  | Text c s => [Text c s]
  end.

Definition extract (i : nat) (t : soup) : soup :=
  flat_map (extract_node i) t.

(** [element.decompose()]: the element leaves the tree and is destroyed;
    on an element that already left the tree nothing changes. *)
Definition decompose (element : node) (t : soup) : soup :=
  match element with
  | Tag i _ _ _ => extract i t
  | Text _ _ => t
  end.

(** [tag.get(key)] *)
Definition get (key : string) (n : node) : option string :=
  match n with
  | Tag _ _ a _ => a !! key
  | Text _ _ => None
  end.

(** [tag.string]: the single string below a chain of only children. *)
Fixpoint string_of (n : node) : option string :=
  match n with
  | Text _ s => Some s
  | Tag _ _ _ [c] => string_of c
  | Tag _ _ _ _ => None
  end.

Definition interesting_string_types : list string_class :=
  [NavigableString; CData].

(** [_all_strings(strip=True)]: the stripped, non-empty strings of the
    interesting classes, in document order. *)
Definition all_strings_stripped (t : soup) : list string :=
  flat_map (fun n =>
    match n with
    | Text c s =>
        if bool_decide (c ∈ interesting_string_types) then
          let s' := Str.strip s in
          if Str.is_empty s' then [] else [s']
        else []
    | Tag _ _ _ _ => []
    end) (descendants t).

(** [soup.get_text(separator=sep, strip=True)] *)
Definition get_text (sep : string) (t : soup) : string :=
  Str.join sep (all_strings_stripped t).

End Bs4.

(** ** Exceptions, results and the trace of effects *)

Module Exc.

(** The exception classes the two tools tell apart, by most specific
    class of the instance. *)
Inductive cls :=
| HTTPError | ConnectionError | Timeout | RequestException
| RequestsJSONDecodeError | JSONDecodeError | AttributeError | Exception.

Global Instance cls_eq_dec : EqDecision cls.
Proof. solve_decision. Defined.

(** Direct base classes; [requests.exceptions.JSONDecodeError] derives
    from both [RequestException] and [json.JSONDecodeError]. *)
Definition bases (c : cls) : list cls :=
  match c with
  | HTTPError | ConnectionError | Timeout => [RequestException]
  | RequestsJSONDecodeError => [RequestException; JSONDecodeError]
  | RequestException | JSONDecodeError | AttributeError => [Exception]
  | Exception => []
  end.

Definition mro (c : cls) : list cls :=
  c :: bases c ++ flat_map bases (bases c).

(** An exception instance: its class and [str(e)]. *)
Record exn := Exn { class_of : cls; str : string }.

Definition isinstance (e : exn) (c : cls) : bool :=
  bool_decide (c ∈ mro (class_of e)).

End Exc.

Module IO.

Inductive event :=
| HttpGet (url : string) (timeout : Z)
| HttpPost (url : string) (api_key : string) (q : string) (num : Z)
           (timeout : Z)
| Stderr (line : string).

Inductive result (A : Type) :=
| Return (a : A)
| Raise (e : Exc.exn).
Global Arguments Return {A} a.
Global Arguments Raise {A} e.

(** A computation: how it ends and what it did, in order. *)
Definition io (A : Type) : Type := (result A * list event)%type.

Global Instance io_ret : MRet io := fun A a => (Return a, []).

Global Instance io_bind : MBind io := fun A B k m =>
  match m with
  | (Return a, tr) => let (r, tr') := k a in (r, tr ++ tr')
  | (Raise e, tr) => (Raise e, tr)
  end.

Definition raise {A} (e : Exc.exn) : io A := (Raise e, []).

Definition emit (ev : event) : io unit := (Return tt, [ev]).

(** A call out of the program: the event, then the outcome the
    environment gives. *)
Definition call {A} (ev : event) (outcome : result A) : io A :=
  (outcome, [ev]).

Definition lift {A} (outcome : result A) : io A := (outcome, []).

(** [print(msg, file=sys.stderr)] *)
Definition print_stderr (msg : string) : io unit := emit (Stderr msg).

Fixpoint select_handler {A} (e : Exc.exn)
    (handlers : list (Exc.cls * (Exc.exn → io A)))
    : option (Exc.exn → io A) :=
  match handlers with
  | [] => None
  | (c, h) :: rest =>
      if Exc.isinstance e c then Some h else select_handler e rest
  end.

(** [try: body except C1 as e: h1 except C2 as e: h2 ...]: the first
    clause whose class the exception is an instance of handles it; an
    exception no clause matches propagates. *)
Definition try_except {A} (body : io A)
    (handlers : list (Exc.cls * (Exc.exn → io A))) : io A :=
  match body with
  | (Return a, tr) => (Return a, tr)
  | (Raise e, tr) =>
      match select_handler e handlers with
      | Some h => let (r, tr') := h e in (r, tr ++ tr')
      | None => (Raise e, tr)
      end
  end.

Definition is_http (ev : event) : bool :=
  match ev with
  | HttpGet _ _ | HttpPost _ _ _ _ _ => true
  | Stderr _ => false
  end.

(** The outbound HTTP calls of a trace. *)
Definition http_calls (tr : list event) : list event :=
  filter (fun ev => is_http ev = true) tr.

End IO.

(** ** The HTTP client

    The [Response] of [requests], with the fields [raise_for_status] and
    the two tools read. *)

Module Requests.

Record response := Response {
  status_code : Z;
  reason : string;
  url : string;
  text : string
}.

(** [Response.raise_for_status()] *)
Definition raise_for_status (r : response) : IO.io unit :=
  let http_error_msg :=
    if ((400 <=? status_code r) && (status_code r <? 500))%Z then
      pretty (status_code r) +:+ " Client Error: " +:+ reason r
        +:+ " for url: " +:+ url r
    else if ((500 <=? status_code r) && (status_code r <? 600))%Z then
      pretty (status_code r) +:+ " Server Error: " +:+ reason r
        +:+ " for url: " +:+ url r
    else EmptyString in
  if Str.is_empty http_error_msg then mret tt
  else IO.raise (Exc.Exn Exc.HTTPError http_error_msg).

End Requests.

(** ** JSON values and [json.dumps] *)

Module Json.

(** What [response.json()] returns.  A float is kept as the text
    [json.dumps] writes for it; a [dict] keeps its insertion order. *)
Inductive value :=
| JNull
| JBool (b : bool)
| JInt (z : Z)
| JFloat (repr : string)
| JStr (s : string)
| JList (l : list value)
| JDict (kvs : list (string * value)).

(** [bool(v)] *)
Definition truthy (v : value) : bool :=
  match v with
  | JNull => false
  | JBool b => b
  | JInt z => negb (z =? 0)%Z
  | JFloat r => negb (bool_decide (r ∈ ["0.0"; "-0.0"]))
  | JStr s => negb (Str.is_empty s)
  | JList l => match l with [] => false | _ => true end
  | JDict kvs => match kvs with [] => false | _ => true end
  end.

Definition type_name (v : value) : string :=
  match v with
  | JNull => "NoneType"
  | JBool _ => "bool"
  | JInt _ => "int"
  | JFloat _ => "float"
  | JStr _ => "str"
  | JList _ => "list"
  | JDict _ => "dict"
  end.

Fixpoint lookup_key (k : string) (kvs : list (string * value))
    : option value :=
  match kvs with
  | [] => None
  | (k', v) :: rest => if bool_decide (k' = k) then Some v
                       else lookup_key k rest
  end.

(** [v.get(key, default)]: defined on a [dict] only. *)
Definition get (v : value) (key : string) (dflt : value)
    : IO.io value :=
  match v with
  | JDict kvs => mret (from_option id dflt (lookup_key key kvs))
  | _ => IO.raise (Exc.Exn Exc.AttributeError
           ("'" +:+ type_name v +:+ "' object has no attribute 'get'"))
  end.

Definition hex_digit (n : N) : ascii :=
  ascii_of_N (if (n <? 10)%N then 48 + n else 87 + n).

(** One character under [ensure_ascii=True]: backslash, quote and
    everything outside SPACE..[~] are escaped. *)
Definition escape_char (c : ascii) : string :=
  let n := N_of_ascii c in
  if (n =? 92)%N then "\\"
  else if (n =? 34)%N then "\" +:+ Str.QUOTE
  else if (n =? 8)%N then "\b"
  else if (n =? 12)%N then "\f"
  else if (n =? 10)%N then "\n"
  else if (n =? 13)%N then "\r"
  else if (n =? 9)%N then "\t"
  else if ((n <? 32) || (126 <? n))%N then
    "\u00" +:+ String (hex_digit (n / 16)) (String (hex_digit (n mod 16))
                                               EmptyString)
  else String c EmptyString.

Fixpoint escape (s : string) : string :=
  match s with
  | EmptyString => EmptyString
  | String c s' => escape_char c +:+ escape s'
  end.

Definition encode_basestring_ascii (s : string) : string :=
  Str.QUOTE +:+ escape s +:+ Str.QUOTE.

Fixpoint spaces (n : nat) : string :=
  match n with
  | O => EmptyString
  | S n' => String " "%char (spaces n')
  end.

Section dumps.
(** [indent] *)
Variable indent : nat.

Definition newline_indent (level : nat) : string :=
  Str.LF +:+ spaces (indent * level).

Fixpoint iterencode (level : nat) (v : value) : string :=
  match v with
  | JNull => "null"
  | JBool true => "true"
  | JBool false => "false"
  | JInt z => pretty z
  | JFloat r => r
  | JStr s => encode_basestring_ascii s
  | JList [] => "[]"
  | JList l =>
      "[" +:+ newline_indent (S level)
      +:+ Str.join ("," +:+ newline_indent (S level))
            (map (iterencode (S level)) l)
      +:+ newline_indent level +:+ "]"
  | JDict [] => "{}"
  | JDict kvs =>
      "{" +:+ newline_indent (S level)
      +:+ Str.join ("," +:+ newline_indent (S level))
            (map (fun kv => encode_basestring_ascii kv.1 +:+ ": "
                            +:+ iterencode (S level) kv.2) kvs)
      +:+ newline_indent level +:+ "}"
  end.

(** [json.dumps(v, indent=indent)] *)
Definition dumps (v : value) : string := iterencode 0 v.
End dumps.

End Json.

(** ** [main.py] *)

Module Main.
Import IO.

(** What the process finds around it: the environment variables, the
    answers of the network to the shared [session], and the two parsers
    ([BeautifulSoup(text, 'html.parser')] and [response.json()]). *)
Record env := Env {
  getenv : string → option string;
  http_get : string → result Requests.response;
  http_post : string → string → string → Z → result Requests.response;
  html_parser : string → result Bs4.soup;
  json_loads : string → result Json.value
}.

(** [session.get(url, verify=certifi.where(), timeout=timeout)] *)
Definition session_get (E : env) (url : string) (timeout : Z)
    : io Requests.response :=
  call (HttpGet url timeout) (http_get E url).

(** [session.post(url, json={"q": q, "num": num},
    headers={'X-API-KEY': api_key, ...}, verify=..., timeout=timeout)] *)
Definition session_post (E : env) (url api_key q : string) (num : Z)
    (timeout : Z) : io Requests.response :=
  call (HttpPost url api_key q num timeout) (http_post E url api_key q num).

Definition BeautifulSoup (E : env) (markup : string) : io Bs4.soup :=
  lift (html_parser E markup).

(** [response.json()] *)
Definition response_json (E : env) (r : Requests.response)
    : io Json.value :=
  lift (json_loads E (Requests.text r)).

(** *** search *)

Definition search_body (E : env) (api_key query : string) : io string :=
  response ← session_post E "https://google.serper.dev/search"
               api_key query 2 10;
  Requests.raise_for_status response;;
  results ← response_json E response;
  organic_results ← Json.get results "organic" (Json.JList []);
  if negb (Json.truthy organic_results) then
    mret "No results found for the query"
  else
    mret (Json.dumps 2 organic_results).

Definition search_handler (prefix : string) (e : Exc.exn) : io string :=
  let error_msg := prefix +:+ Exc.str e in
  print_stderr error_msg;;
  mret error_msg.

Definition search (E : env) (query : string) : io string :=
  match getenv E "SERPER_API_KEY" with
  | None | Some EmptyString =>
      let error_msg :=
        "Error: SERPER_API_KEY environment variable is not set" in
      print_stderr error_msg;;
      mret error_msg
  | Some api_key =>
      try_except (search_body E api_key query)
        [ (Exc.RequestException,
           search_handler "Error making API request: ");
          (Exc.JSONDecodeError,
           search_handler "Error parsing API response: ");
          (Exc.Exception,
           search_handler "Error occurred during search: ") ]
  end.

(** *** scrape *)

(** The values of the record [scrape] returns; in the metadata mapping
    [None] is Python's [None]. *)
Inductive value :=
| VStr (s : string)
| VInt (z : Z)
| VDict (d : gmap string (option string)).

Definition removed_tags : list string := ["script"; "style"; "iframe"].

Definition max_content : nat := 5000.

(** [for element in soup([...]): element.decompose()] *)
Definition decompose_all (names : list string) (soup : Bs4.soup)
    : Bs4.soup :=
  fold_left (fun t element => Bs4.decompose element t)
    (Bs4.find_all names [] soup) soup.

(** [if el: metadata[key] = v(el)] *)
Definition set_if_found (key : string) (el : option Bs4.node)
    (v : Bs4.node → option string) (metadata : gmap string (option string))
    : gmap string (option string) :=
  match el with
  | Some e => <[key := v e]> metadata
  | None => metadata
  end.

Definition extract_metadata (soup : Bs4.soup)
    : gmap string (option string) :=
  let metadata := ∅ in
  let title := Bs4.find "title" [] soup in
  let metadata := set_if_found "title" title Bs4.string_of metadata in
  let description := Bs4.find "meta" [("name", "description")] soup in
  let metadata :=
    set_if_found "description" description (Bs4.get "content") metadata in
  let keywords := Bs4.find "meta" [("name", "keywords")] soup in
  let metadata :=
    set_if_found "keywords" keywords (Bs4.get "content") metadata in
  let og_title := Bs4.find "meta" [("property", "og:title")] soup in
  let metadata :=
    set_if_found "og_title" og_title (Bs4.get "content") metadata in
  let og_description :=
    Bs4.find "meta" [("property", "og:description")] soup in
  let metadata :=
    set_if_found "og_description" og_description (Bs4.get "content")
      metadata in
  metadata.

Definition scrape_body (E : env) (url : string) (include_metadata : bool)
    : io (gmap string value) :=
  response ← session_get E url 10;
  Requests.raise_for_status response;;
  soup ← BeautifulSoup E (Requests.text response);
  let soup := decompose_all removed_tags soup in
  let content := Bs4.get_text Str.LF soup in
  let result : gmap string value :=
    <["status" := VInt (Requests.status_code response)]>
      (<["url" := VStr url]>
         {["content" := VStr (Str.slice_to max_content content)]}) in
  let result :=
    if include_metadata then
      <["metadata" := VDict (extract_metadata soup)]> result
    else result in
  mret result.

Definition scrape_handler (prefix url : string) (e : Exc.exn)
    : io (gmap string value) :=
  let error_msg := prefix +:+ Exc.str e in
  print_stderr error_msg;;
  mret (<["url" := VStr url]> {["error" := VStr error_msg]}).

Definition scrape (E : env) (url : string) (include_metadata : bool)
    : io (gmap string value) :=
  try_except (scrape_body E url include_metadata)
    [ (Exc.RequestException, scrape_handler "Error fetching URL: " url);
      (Exc.Exception, scrape_handler "Error scraping content: " url) ].

(** The two shapes of an outcome, by the keys of the record. *)
Definition success_record (d : gmap string value) : Prop :=
  dom d = {["content"; "url"; "status"]}
  ∨ dom d = {["content"; "url"; "status"; "metadata"]}.

Definition failure_record (d : gmap string value) : Prop :=
  dom d = {["error"; "url"]}.

End Main.

(** ** Characterisations used in the proofs *)

Module Pruned.
Import Bs4.

(** The object identities of a list of elements. *)
Definition ident_of (n : node) : list nat :=
  match n with
  | Tag i _ _ _ => [i]
  | Text _ _ => []
  end.

Definition idents (l : list node) : list nat := flat_map ident_of l.

(** Detaching every object of [ids] at once. *)
Fixpoint extract_ids_node (ids : list nat) (n : node) : list node :=
  match n with
  | Tag j nm a cs =>
      if bool_decide (j ∈ ids) then []
      else [Tag j nm a (flat_map (extract_ids_node ids) cs)]
  | Text c s => [Text c s]
  end.

Definition extract_ids (ids : list nat) (t : soup) : soup :=
  flat_map (extract_ids_node ids) t.

(** The tree without the subtrees of the tags named in [names]. *)
Fixpoint remove_tags_node (names : list string) (n : node) : list node :=
  match n with
  | Tag j nm a cs =>
      if bool_decide (nm ∈ names) then []
      else [Tag j nm a (flat_map (remove_tags_node names) cs)]
  | Text c s => [Text c s]
  end.

Definition remove_tags (names : list string) (t : soup) : soup :=
  flat_map (remove_tags_node names) t.

(** [outside names t n]: the element [n] sits in [t] and none of its
    ancestors is a tag named in [names]. *)
Inductive outside (names : list string) : soup → node → Prop :=
| outside_here t n :
    n ∈ t → outside names t n
| outside_below t i nm a cs n :
    Tag i nm a cs ∈ t → nm ∉ names → outside names cs n →
    outside names t n.

(** No whitespace at either end. *)
Definition trimmed (s : string) : Prop :=
  (∀ c r, s = String c r → Str.isspace c = false)
  ∧ (∀ r c, s = r +:+ String c EmptyString → Str.isspace c = false).

End Pruned.

(** The outcomes of the two tools, written out. *)

Module Outcome.
Import IO Main.

(** [{"error": prefix + str(e), "url": url}] *)
Definition failure (prefix url : string) (e : Exc.exn)
    : gmap string value :=
  <["url" := VStr url]> {["error" := VStr (prefix +:+ Exc.str e)]}.

(** The record of a fetch that went through, over the pruned tree. *)
Definition success (url : string) (include_metadata : bool) (status : Z)
    (pruned : Bs4.soup) : gmap string value :=
  let result : gmap string value :=
    <["status" := VInt status]>
      (<["url" := VStr url]>
         {["content" :=
             VStr (Str.slice_to max_content
                     (Bs4.get_text Str.LF pruned))]}) in
  if include_metadata then
    <["metadata" := VDict (extract_metadata pruned)]> result
  else result.

Definition error_status (status : Z) : bool :=
  ((400 <=? status) && (status <? 600))%Z.

(** The [HTTPError] of [raise_for_status] on an error status. *)
Definition http_error (r : Requests.response) : Exc.exn :=
  Exc.Exn Exc.HTTPError
    (pretty (Requests.status_code r)
     +:+ (if (Requests.status_code r <? 500)%Z then " Client Error: "
          else " Server Error: ")
     +:+ Requests.reason r +:+ " for url: " +:+ Requests.url r).

Definition scrape_prefix (e : Exc.exn) : string :=
  if Exc.isinstance e Exc.RequestException then "Error fetching URL: "
  else "Error scraping content: ".

Definition search_prefix (e : Exc.exn) : string :=
  if Exc.isinstance e Exc.RequestException then
    "Error making API request: "
  else if Exc.isinstance e Exc.JSONDecodeError then
    "Error parsing API response: "
  else "Error occurred during search: ".

(** The body of [scrape], case by case. *)
Definition scrape_body_cases (E : env) (url : string)
    (include_metadata : bool) : io (gmap string value) :=
  match http_get E url with
  | Raise e => (Raise e, [HttpGet url 10])
  | Return r =>
      if error_status (Requests.status_code r) then
        (Raise (http_error r), [HttpGet url 10])
      else
        match html_parser E (Requests.text r) with
        | Raise e => (Raise e, [HttpGet url 10])
        | Return t =>
            (Return (success url include_metadata (Requests.status_code r)
                       (decompose_all removed_tags t)),
             [HttpGet url 10])
        end
  end.

Definition no_credential : string :=
  "Error: SERPER_API_KEY environment variable is not set".

Definition no_results : string := "No results found for the query".

Definition search_url : string := "https://google.serper.dev/search".

End Outcome.

(** Pages and environments to run the tools on. *)

Module Example.
Import Bs4 IO Main.

(** [<html><head><title>T</title><meta name="description" content="D">
    </head><body><script>evil()</script><p>Hello</p></body></html>] *)
Definition page : soup :=
  [Tag 0 "html" ∅
     [Tag 1 "head" ∅
        [Tag 2 "title" ∅ [Text NavigableString "T"];
         Tag 3 "meta" (<["content" := "D"]> {["name" := "description"]})
           []];
      Tag 4 "body" ∅
        [Tag 5 "script" ∅ [Text Script "evil()"];
         Tag 6 "p" ∅ [Text NavigableString "Hello"]]]].

(** [<html><head><title></title><meta name="description"></head>
    </html>] *)
Definition bare_page : soup :=
  [Tag 0 "html" ∅
     [Tag 1 "head" ∅
        [Tag 2 "title" ∅ [];
         Tag 3 "meta" {["name" := "description"]} []]]].

(** [<html><body><p>Hello</p></body></html>] *)
Definition plain_page : soup :=
  [Tag 0 "html" ∅
     [Tag 1 "body" ∅ [Tag 2 "p" ∅ [Text NavigableString "Hello"]]]].

Definition unreachable_exn : Exc.exn :=
  Exc.Exn Exc.ConnectionError "Connection refused".

Definition unreachable {A} : result A := Raise unreachable_exn.

(** Every URL answers [status] and parses to [t]; no API key is set. *)
Definition env_page (status : Z) (reason : string) (t : soup) : env :=
  Env (λ _, None)
      (λ u, Return (Requests.Response status reason u "<html>"))
      (λ _ _ _ _, unreachable)
      (λ _, Return t)
      (λ _, Raise (Exc.Exn Exc.JSONDecodeError "Expecting value")).

(** No URL can be reached; no API key is set. *)
Definition env_offline : env :=
  Env (λ _, None) (λ _, unreachable) (λ _ _ _ _, unreachable)
      (λ _, Return []) (λ _, Return Json.JNull).

(** The key [k] is set and the search API answers 200 with [body]. *)
Definition env_search (k : string) (body : Json.value) : env :=
  Env (λ v, if bool_decide (v = "SERPER_API_KEY") then Some k else None)
      (λ _, unreachable)
      (λ u _ _ _, Return (Requests.Response 200 "OK" u "{...}"))
      (λ _, Return [])
      (λ _, Return body).

(** The key [k] is set and the search API cannot be reached. *)
Definition env_down (k : string) : env :=
  Env (λ v, if bool_decide (v = "SERPER_API_KEY") then Some k else None)
      (λ _, unreachable) (λ _ _ _ _, unreachable)
      (λ _, Return []) (λ _, Return Json.JNull).

Definition hit : Json.value :=
  Json.JDict [("title", Json.JStr "Rocq"); ("position", Json.JInt 1)].

Definition home : string := "http://example.org/".
Definition gone : string := "http://example.org/gone".

Definition response_200 : Requests.response :=
  Requests.Response 200 "OK" home "<html>".
Definition response_404 : Requests.response :=
  Requests.Response 404 "Not Found" gone "<html>".
Definition response_api : Requests.response :=
  Requests.Response 200 "OK" "https://google.serper.dev/search" "{...}".

Definition env_404 : env := env_page 404 "Not Found" plain_page.

End Example.

(** The diagnostic stream of a trace, and more pages and environments. *)

Module Trace.
Import Bs4 IO Main.

(** The lines the [print(..., file=sys.stderr)] calls of the program
    write, in order. *)
Definition stderr_lines (tr : list event) : list string :=
  flat_map (λ ev, match ev with Stderr line => [line] | _ => [] end) tr.

(** The key [k] is set and the search API answers [status]. *)
Definition env_api_status (k : string) (status : Z) (reason : string)
    : env :=
  Env (λ v, if bool_decide (v = "SERPER_API_KEY") then Some k else None)
      (λ _, Example.unreachable)
      (λ u _ _ _, Return (Requests.Response status reason u "{...}"))
      (λ _, Return [])
      (λ _, Return Json.JNull).

(** The key [k] is set, the search API answers 200 and the body of the
    answer makes [response.json()] raise [e]. *)
Definition env_api_garbled (k : string) (e : Exc.exn) : env :=
  Env (λ v, if bool_decide (v = "SERPER_API_KEY") then Some k else None)
      (λ _, Example.unreachable)
      (λ u _ _ _, Return (Requests.Response 200 "OK" u "<html>"))
      (λ _, Return [])
      (λ _, Raise e).

(** Every URL answers 200 with a body the HTML parser rejects. *)
Definition env_unparsable (e : Exc.exn) : env :=
  Env (λ _, None)
      (λ u, Return (Requests.Response 200 "OK" u "<html>"))
      (λ _ _ _ _, Example.unreachable)
      (λ _, Raise e)
      (λ _, Return Json.JNull).

(** [<html><body><iframe><title>Ad</title>inner</iframe><!-- note -->
    <p> Hello </p></body></html>] *)
Definition framed_page : soup :=
  [Tag 0 "html" ∅
     [Tag 1 "body" ∅
        [Tag 2 "iframe" ∅
           [Tag 3 "title" ∅ [Text NavigableString "Ad"];
            Text NavigableString "inner"];
         Text Comment " note ";
         Tag 4 "p" ∅ [Text NavigableString " Hello "]]]].

End Trace.

(** ** Strings *)

Section strings.
Import Str.

Lemma app_String c s r : String c s +:+ r = String c (s +:+ r).
Proof. reflexivity. Qed.

Lemma app_Empty s : EmptyString +:+ s = s.
Proof. reflexivity. Qed.

Lemma slice_to_length n s :
  String.length (slice_to n s) = Nat.min n (String.length s).
Proof.
  unfold slice_to. revert s.
  induction n as [|n IH]; intros [|c s]; simpl; auto.
Qed.

Lemma slice_to_prefix n s : ∃ rest, s = slice_to n s +:+ rest.
Proof.
  unfold slice_to. revert s.
  induction n as [|n IH]; intros [|c s]; simpl.
  - by exists EmptyString.
  - by exists (String c s).
  - by exists EmptyString.
  - destruct (IH s) as [rest Hrest]. exists rest.
    rewrite app_String. by rewrite <- Hrest.
Qed.

Lemma lstrip_no_leading s c r : lstrip s = String c r → isspace c = false.
Proof.
  induction s as [|c' s IH]; simpl; [done|].
  destruct (isspace c') eqn:Hc; [done|].
  by intros [= -> ->].
Qed.

Lemma lstrip_suffix s :
  ∃ pre, s = pre +:+ lstrip s ∧ all_space pre = true.
Proof.
  induction s as [|c s (pre & IH & Hpre)]; simpl.
  - by exists EmptyString.
  - destruct (isspace c) eqn:Hc.
    + exists (String c pre). rewrite app_String, <- IH. simpl.
      by rewrite Hc, Hpre.
    + by exists EmptyString.
Qed.

Lemma rstrip_prefix s :
  ∃ post, s = rstrip s +:+ post ∧ all_space post = true.
Proof.
  induction s as [|c s (post & IH & Hpost)]; simpl.
  - by exists EmptyString.
  - destruct (rstrip s) as [|c' r] eqn:Hr.
    + rewrite app_Empty in IH. subst post.
      destruct (isspace c) eqn:Hc.
      * exists (String c s). rewrite app_Empty. simpl. by rewrite Hc, Hpost.
      * by exists s.
    + exists post. by rewrite app_String, <- IH.
Qed.

Lemma rstrip_no_trailing s r c :
  rstrip s = r +:+ String c EmptyString → isspace c = false.
Proof.
  revert r. induction s as [|c' s IH]; intros r; simpl.
  - by destruct r.
  - destruct (rstrip s) as [|c2 r2] eqn:Hs.
    + destruct (isspace c') eqn:Hc'; [by destruct r|].
      destruct r as [|c3 [|c4 r]]; rewrite ?app_String, ?app_Empty;
        intros [=]; by subst.
    + destruct r as [|c3 r]; rewrite ?app_String, ?app_Empty; [intros [=]|].
      intros [= -> Hr]. by apply (IH r).
Qed.

Lemma app_assoc_String pre r c :
  pre +:+ (r +:+ String c EmptyString)
  = (pre +:+ r) +:+ String c EmptyString.
Proof.
  induction pre as [|p pre IH]; [done|].
  rewrite !app_String. by f_equal.
Qed.

Lemma strip_trimmed s : Pruned.trimmed (strip s).
Proof.
  unfold Pruned.trimmed, strip. split.
  - intros c r. apply lstrip_no_leading.
  - intros r c Heq.
    destruct (lstrip_suffix (rstrip s)) as (pre & Hpre & _).
    rewrite Heq, app_assoc_String in Hpre.
    by apply (rstrip_no_trailing s (pre +:+ r)).
Qed.

(** [strip] drops whitespace only: the string is its stripped part
    between two runs of whitespace. *)
Lemma strip_removes_whitespace_only s :
  ∃ pre post, s = (pre +:+ strip s) +:+ post
    ∧ all_space pre = true ∧ all_space post = true.
Proof.
  destruct (rstrip_prefix s) as (post & Hs & Hpost).
  destruct (lstrip_suffix (rstrip s)) as (pre & Hr & Hpre).
  exists pre, post. unfold strip. by rewrite <- Hr, <- Hs.
Qed.

End strings.

(** ** The document tree: removing elements *)

Section tree.
Import Bs4 Pruned.

Lemma node_ind' (P : node → Prop)
    (HTag : ∀ i nm a cs, Forall P cs → P (Tag i nm a cs))
    (HText : ∀ c s, P (Text c s)) :
  ∀ n, P n.
Proof.
  fix IH 1. intros [i nm a cs | c s]; [apply HTag | apply HText].
  induction cs as [|x cs IHcs]; constructor; [apply IH | exact IHcs].
Qed.

Lemma elem_of_flat_map {A B} (f : A → list B) (l : list A) (y : B) :
  y ∈ flat_map f l ↔ ∃ x, x ∈ l ∧ y ∈ f x.
Proof.
  rewrite list_elem_of_In, in_flat_map.
  by setoid_rewrite list_elem_of_In.
Qed.

Lemma flat_map_flat_map {A B C} (f : A → list B) (g : B → list C) l :
  flat_map g (flat_map f l) = flat_map (λ x, flat_map g (f x)) l.
Proof.
  induction l as [|x l IH]; simpl; [done|].
  by rewrite flat_map_app, IH.
Qed.

Lemma flat_map_Forall_ext {A B} (f g : A → list B) l :
  Forall (λ x, f x = g x) l → flat_map f l = flat_map g l.
Proof. induction 1 as [|x l Hx _ IH]; simpl; [done | by rewrite Hx, IH]. Qed.

Lemma flat_map_singleton {A} (l : list A) : flat_map (λ x, [x]) l = l.
Proof. induction l as [|x l IH]; simpl; [done | by rewrite IH]. Qed.

(** *** Membership in [descendants] *)

Lemma elem_of_descendants t n :
  n ∈ descendants t ↔ ∃ x, x ∈ t ∧ n ∈ subtree x.
Proof. apply elem_of_flat_map. Qed.

Lemma elem_of_subtree_Tag i nm a cs n :
  n ∈ subtree (Tag i nm a cs) ↔ n = Tag i nm a cs ∨ n ∈ descendants cs.
Proof. simpl. by rewrite elem_of_cons. Qed.

Lemma elem_of_subtree_Text c s n : n ∈ subtree (Text c s) ↔ n = Text c s.
Proof. simpl. by rewrite list_elem_of_singleton. Qed.

Lemma subtree_self n : n ∈ subtree n.
Proof. destruct n; simpl; apply elem_of_cons; by left. Qed.

Lemma descendants_top t n : n ∈ t → n ∈ descendants t.
Proof. intros Hn. apply elem_of_descendants. eauto using subtree_self. Qed.

Lemma descendants_below t i nm a cs n :
  Tag i nm a cs ∈ t → n ∈ descendants cs → n ∈ descendants t.
Proof.
  intros Hx Hn. apply elem_of_descendants. exists (Tag i nm a cs).
  split; [done|]. apply elem_of_subtree_Tag. by right.
Qed.

Lemma descendants_singleton x n : n ∈ descendants [x] ↔ n ∈ subtree x.
Proof. unfold descendants. simpl. by rewrite app_nil_r. Qed.

(** *** The loop of [decompose] calls detaches a set of objects *)

Lemma extract_ids_node_nil n : extract_ids_node [] n = [n].
Proof.
  induction n as [i nm a cs IH | c s] using node_ind'; simpl; [|done].
  do 2 f_equal. rewrite <- (flat_map_singleton cs) at 2.
  by apply flat_map_Forall_ext.
Qed.

Lemma extract_ids_nil t : extract_ids [] t = t.
Proof.
  unfold extract_ids. rewrite <- (flat_map_singleton t) at 2.
  apply flat_map_Forall_ext, Forall_forall. intros x _.
  apply extract_ids_node_nil.
Qed.

Lemma extract_node_then_ids i ids n :
  flat_map (extract_ids_node ids) (extract_node i n)
  = extract_ids_node (i :: ids) n.
Proof.
  induction n as [j nm a cs IH | c s] using node_ind'; simpl; [|done].
  destruct (decide (j = i)) as [->|Hne].
  - rewrite bool_decide_eq_true_2 by done.
    rewrite bool_decide_eq_true_2 by (apply elem_of_cons; by left). done.
  - rewrite (bool_decide_eq_false_2 (j = i)) by done. simpl.
    rewrite app_nil_r.
    assert (Hiff : j ∈ i :: ids ↔ j ∈ ids).
    { rewrite elem_of_cons. split; [by intros [?|?] | by right]. }
    rewrite (bool_decide_ext _ _ Hiff).
    destruct (bool_decide (j ∈ ids)); [done|].
    do 2 f_equal. rewrite flat_map_flat_map.
    by apply flat_map_Forall_ext.
Qed.

Lemma extract_then_ids i ids t :
  extract_ids ids (extract i t) = extract_ids (i :: ids) t.
Proof.
  unfold extract_ids, extract. rewrite flat_map_flat_map.
  apply flat_map_Forall_ext, Forall_forall. intros x _.
  apply extract_node_then_ids.
Qed.

Lemma fold_decompose els t :
  fold_left (λ t' element, decompose element t') els t
  = extract_ids (idents els) t.
Proof.
  revert t. induction els as [|e els IH]; intros t; simpl.
  - by rewrite extract_ids_nil.
  - rewrite IH. destruct e as [i nm a cs | c s]; simpl; [|done].
    apply extract_then_ids.
Qed.

Lemma decompose_all_extract_ids names t :
  Main.decompose_all names t
  = extract_ids (idents (find_all names [] t)) t.
Proof. apply fold_decompose. Qed.

(** *** What is left after detaching *)

Lemma descendants_extract_ids ids t n :
  n ∈ descendants (extract_ids ids t)
  ↔ ∃ x, x ∈ t ∧ n ∈ descendants (extract_ids_node ids x).
Proof.
  unfold descendants at 1, extract_ids.
  rewrite flat_map_flat_map. apply elem_of_flat_map.
Qed.

Lemma outside_weaken names x t n :
  x ∈ t → outside names [x] n → outside names t n.
Proof.
  intros Hx Hn. inversion Hn as [? ? Hin | ? i nm a cs ? Hin Hnm Hout]; subst.
  - apply list_elem_of_singleton in Hin as ->. by apply outside_here.
  - apply list_elem_of_singleton in Hin as <-.
    by eapply outside_below.
Qed.

(** Once every tag named in [names] is among the detached objects, a
    string left in the tree has no such tag above it. *)
Lemma extract_ids_node_text_outside names ids n :
  (∀ i nm a cs, Tag i nm a cs ∈ subtree n → nm ∈ names → i ∈ ids) →
  ∀ c s, Text c s ∈ descendants (extract_ids_node ids n) →
         outside names [n] (Text c s).
Proof.
  induction n as [j nm a cs IH | c0 s0] using node_ind';
    intros Hcov c s; cbn [extract_ids_node].
  - destruct (bool_decide (j ∈ ids)) eqn:Hj.
    { intros Hin. by apply elem_of_nil in Hin. }
    apply bool_decide_eq_false in Hj.
    rewrite descendants_singleton, elem_of_subtree_Tag.
    intros [? | Hin]; [done|].
    apply descendants_extract_ids in Hin as (x & Hx & Hin).
    apply (outside_below names _ j nm a cs).
    + by apply list_elem_of_singleton.
    + intros Hnm. apply Hj, (Hcov j nm a cs); [apply subtree_self | done].
    + apply (outside_weaken names x); [done|].
      rewrite Forall_forall in IH. apply IH; [done| |done].
      intros i' nm' a' cs' Hsub. apply (Hcov i' nm' a' cs').
      apply elem_of_subtree_Tag. right. apply elem_of_descendants. eauto.
  - rewrite descendants_singleton, elem_of_subtree_Text.
    intros ->. apply outside_here. by apply list_elem_of_singleton.
Qed.

Lemma extract_ids_text_outside names ids t :
  (∀ i nm a cs, Tag i nm a cs ∈ descendants t → nm ∈ names → i ∈ ids) →
  ∀ c s, Text c s ∈ descendants (extract_ids ids t) →
         outside names t (Text c s).
Proof.
  intros Hcov c s Hin.
  apply descendants_extract_ids in Hin as (x & Hx & Hin).
  apply (outside_weaken names x); [done|].
  apply (extract_ids_node_text_outside names ids); [|done].
  intros i nm a cs Hsub. apply (Hcov i nm a cs).
  apply elem_of_descendants. eauto.
Qed.

(** A tag left in the tree was one of the tree, outside the detached
    objects. *)
Lemma extract_ids_node_tag_origin ids n :
  ∀ i nm a cs', Tag i nm a cs' ∈ descendants (extract_ids_node ids n) →
    (i ∉ ids) ∧ (∃ cs, Tag i nm a cs ∈ subtree n).
Proof.
  induction n as [j nm0 a0 cs0 IH | c0 s0] using node_ind';
    intros i nm a cs'; cbn [extract_ids_node].
  - destruct (bool_decide (j ∈ ids)) eqn:Hj.
    { intros Hin. by apply elem_of_nil in Hin. }
    apply bool_decide_eq_false in Hj.
    rewrite descendants_singleton, elem_of_subtree_Tag.
    intros [[= -> -> -> ->] | Hin].
    + split; [done|]. exists cs0. apply elem_of_cons. by left.
    + apply descendants_extract_ids in Hin as (x & Hx & Hin).
      rewrite Forall_forall in IH.
      destruct (IH x Hx _ _ _ _ Hin) as (Hi & cs & Hsub).
      split; [done|]. exists cs. apply elem_of_cons. right.
      apply elem_of_descendants. eauto.
  - rewrite descendants_singleton, elem_of_subtree_Text. done.
Qed.

Lemma extract_ids_tag_origin ids t i nm a cs' :
  Tag i nm a cs' ∈ descendants (extract_ids ids t) →
  (i ∉ ids) ∧ (∃ cs, Tag i nm a cs ∈ descendants t).
Proof.
  intros Hin. apply descendants_extract_ids in Hin as (x & Hx & Hin).
  destruct (extract_ids_node_tag_origin ids x _ _ _ _ Hin)
    as (Hi & cs & Hsub).
  split; [done|]. exists cs. apply elem_of_descendants. eauto.
Qed.

Lemma matches_no_attrs names i nm a cs :
  matches names [] (Tag i nm a cs) = bool_decide (nm ∈ names).
Proof. simpl. apply andb_true_r. Qed.

(** [find_all] hands the loop every tag with one of the names. *)
Lemma find_all_covers names t i nm a cs :
  Tag i nm a cs ∈ descendants t → nm ∈ names →
  i ∈ idents (find_all names [] t).
Proof.
  intros Hin Hnm. apply elem_of_flat_map. exists (Tag i nm a cs). split.
  - apply list_elem_of_filter. split; [|done].
    rewrite matches_no_attrs. by apply bool_decide_eq_true.
  - simpl. by apply list_elem_of_singleton.
Qed.

Lemma decompose_all_text_outside names t c s :
  Text c s ∈ descendants (Main.decompose_all names t) →
  outside names t (Text c s).
Proof.
  rewrite decompose_all_extract_ids.
  apply extract_ids_text_outside. apply find_all_covers.
Qed.

Lemma decompose_all_no_match names t n :
  n ∈ descendants (Main.decompose_all names t) →
  matches names [] n = false.
Proof.
  rewrite decompose_all_extract_ids.
  destruct n as [i nm a cs' | c s]; [|done].
  intros Hin. apply extract_ids_tag_origin in Hin as (Hi & cs & Hin).
  rewrite matches_no_attrs. apply bool_decide_eq_false. intros Hnm.
  by apply Hi, (find_all_covers names t i nm a cs).
Qed.

(** *** With distinct objects the loop removes exactly the named tags *)

Lemma extract_ids_node_remove_tags names ids n :
  (∀ i nm a cs, Tag i nm a cs ∈ subtree n → i ∈ ids ↔ nm ∈ names) →
  extract_ids_node ids n = remove_tags_node names n.
Proof.
  induction n as [j nm a cs IH | c s] using node_ind'; intros Hiff;
    simpl; [|done].
  rewrite (bool_decide_ext _ _ (Hiff j nm a cs (subtree_self _))).
  destruct (bool_decide (nm ∈ names)); [done|].
  do 2 f_equal. apply flat_map_Forall_ext.
  rewrite Forall_forall in IH. apply Forall_forall. intros x Hx.
  apply IH; [done|]. intros i' nm' a' cs' Hsub. apply (Hiff i' nm' a' cs').
  apply elem_of_subtree_Tag. right. apply elem_of_descendants. eauto.
Qed.

Lemma idents_unique l x y i :
  NoDup (idents l) → x ∈ l → y ∈ l →
  i ∈ ident_of x → i ∈ ident_of y → x = y.
Proof.
  induction l as [|z l IH]; intros Hnd Hx Hy Hix Hiy.
  { by apply elem_of_nil in Hx. }
  unfold idents in Hnd. simpl in Hnd.
  apply NoDup_app in Hnd as (_ & Hdisj & Hnd).
  apply elem_of_cons in Hx as [->|Hx]; apply elem_of_cons in Hy as [->|Hy].
  - done.
  - exfalso. apply (Hdisj i Hix). apply elem_of_flat_map. eauto.
  - exfalso. apply (Hdisj i Hiy). apply elem_of_flat_map. eauto.
  - by apply IH.
Qed.

Lemma find_all_ids_iff names t i nm a cs :
  NoDup (idents (descendants t)) →
  Tag i nm a cs ∈ descendants t →
  i ∈ idents (find_all names [] t) ↔ nm ∈ names.
Proof.
  intros Hnd Hin. split; [|by apply (find_all_covers names t i nm a cs)].
  intros Hi. apply elem_of_flat_map in Hi as (y & Hy & Hiy).
  apply list_elem_of_filter in Hy as [Hm Hy].
  assert (Heq : Tag i nm a cs = y).
  { apply (idents_unique (descendants t) _ _ i); [done..| |done].
    simpl. by apply list_elem_of_singleton. }
  subst y. rewrite matches_no_attrs in Hm.
  by apply bool_decide_eq_true in Hm.
Qed.

Lemma decompose_all_remove_tags names t :
  NoDup (idents (descendants t)) →
  Main.decompose_all names t = remove_tags names t.
Proof.
  intros Hnd. rewrite decompose_all_extract_ids.
  apply flat_map_Forall_ext, Forall_forall. intros x Hx.
  apply extract_ids_node_remove_tags. intros i nm a cs Hsub.
  apply (find_all_ids_iff names t i nm a cs Hnd).
  apply elem_of_descendants. eauto.
Qed.

End tree.

(** ** Exceptions and the two [try] blocks *)

Section effects.
Import IO Main Outcome.

Lemma isinstance_Exception e : Exc.isinstance e Exc.Exception = true.
Proof. destruct e as [[] msg]; reflexivity. Qed.

Lemma is_empty_app s1 s2 :
  Str.is_empty (s1 +:+ s2) = Str.is_empty s1 && Str.is_empty s2.
Proof. by destruct s1. Qed.

Lemma raise_for_status_ok r :
  error_status (Requests.status_code r) = false →
  Requests.raise_for_status r = (Return (), []).
Proof.
  unfold error_status, Requests.raise_for_status. intros Hst.
  destruct (400 <=? Requests.status_code r)%Z eqn:H4; simpl in *.
  - rewrite Hst.
    assert (H5 : (Requests.status_code r <? 500)%Z = false) by lia.
    rewrite H5. simpl. by rewrite andb_false_r.
  - assert (H5 : (500 <=? Requests.status_code r)%Z = false) by lia.
    by rewrite H5.
Qed.

Lemma raise_for_status_error r :
  error_status (Requests.status_code r) = true →
  Requests.raise_for_status r = (Raise (http_error r), []).
Proof.
  unfold error_status, Requests.raise_for_status, http_error. intros Hst.
  apply andb_true_iff in Hst as [H4 H6]. rewrite H4, H6. simpl.
  destruct (Requests.status_code r <? 500)%Z eqn:H5.
  - rewrite !is_empty_app. simpl. by rewrite andb_false_r.
  - assert (H5' : (500 <=? Requests.status_code r)%Z = true) by lia.
    rewrite H5'. simpl. rewrite !is_empty_app. simpl.
    by rewrite andb_false_r.
Qed.

Lemma scrape_body_eq E url flag :
  scrape_body E url flag = scrape_body_cases E url flag.
Proof.
  unfold scrape_body, scrape_body_cases, session_get, call, BeautifulSoup,
    lift.
  destruct (http_get E url) as [r|e]; [|done].
  destruct (error_status (Requests.status_code r)) eqn:Hst.
  - unfold mbind, io_bind. by rewrite raise_for_status_error.
  - unfold mbind, io_bind. rewrite raise_for_status_ok by done.
    destruct (html_parser E (Requests.text r)) as [t|e]; [|done].
    unfold success. by destruct flag.
Qed.

Lemma scrape_of_raise E url flag e tr :
  scrape_body E url flag = (Raise e, tr) →
  scrape E url flag
  = (Return (failure (scrape_prefix e) url e),
     tr ++ [Stderr (scrape_prefix e +:+ Exc.str e)]).
Proof.
  intros Hbody. unfold scrape, try_except. rewrite Hbody.
  unfold scrape_prefix. simpl.
  destruct (Exc.isinstance e Exc.RequestException); [done|].
  by rewrite isinstance_Exception.
Qed.

Lemma scrape_of_return E url flag d tr :
  scrape_body E url flag = (Return d, tr) →
  scrape E url flag = (Return d, tr).
Proof. intros Hbody. unfold scrape, try_except. by rewrite Hbody. Qed.

End effects.

(** ** The record [scrape] returns *)

Section records.
Import IO Main Outcome.

Lemma failure_dom prefix url e :
  dom (failure prefix url e) = {["error"; "url"]}.
Proof.
  unfold failure. rewrite dom_insert_L, dom_singleton_L. set_solver.
Qed.

Lemma success_dom url flag status pruned :
  dom (success url flag status pruned)
  = if flag then {["content"; "url"; "status"; "metadata"]}
    else {["content"; "url"; "status"]}.
Proof.
  unfold success. destruct flag;
    rewrite !dom_insert_L, dom_singleton_L; set_solver.
Qed.

Lemma failure_is_failure prefix url e :
  failure_record (failure prefix url e).
Proof. apply failure_dom. Qed.

Lemma failure_not_success prefix url e :
  ¬ success_record (failure prefix url e).
Proof.
  unfold success_record. rewrite failure_dom.
  intros [H|H]; apply (f_equal (λ X : gset string, bool_decide ("error" ∈ X))) in H;
    vm_compute in H; done.
Qed.

Lemma success_is_success url flag status pruned :
  success_record (success url flag status pruned).
Proof.
  unfold success_record. rewrite success_dom. destruct flag; auto.
Qed.

Lemma success_not_failure url flag status pruned :
  ¬ failure_record (success url flag status pruned).
Proof.
  unfold failure_record. rewrite success_dom.
  intros H; apply (f_equal (λ X : gset string, bool_decide ("error" ∈ X))) in H.
  destruct flag; vm_compute in H; done.
Qed.

End records.

(** ** How a call of [scrape] ends *)

Section scrape_runs.
Import IO Main Outcome.

(** Either the body raised and the handler of the exception's class built
    the failure record, or the fetch went through with a status outside
    400..599, the page parsed, and the body returned the success record. *)
Lemma scrape_run E url flag :
  (∃ e tr, scrape_body E url flag = (Raise e, tr)
     ∧ scrape E url flag
       = (Return (failure (scrape_prefix e) url e),
          tr ++ [Stderr (scrape_prefix e +:+ Exc.str e)]))
  ∨ (∃ r t, http_get E url = Return r
       ∧ error_status (Requests.status_code r) = false
       ∧ html_parser E (Requests.text r) = Return t
       ∧ scrape_body E url flag
         = (Return (success url flag (Requests.status_code r)
                      (decompose_all removed_tags t)), [HttpGet url 10])
       ∧ scrape E url flag
         = (Return (success url flag (Requests.status_code r)
                      (decompose_all removed_tags t)), [HttpGet url 10])).
Proof.
  destruct (scrape_body E url flag) as [[d|e] tr] eqn:Hbody.
  - right. pose proof Hbody as Hcases.
    rewrite scrape_body_eq in Hcases. unfold scrape_body_cases in Hcases.
    destruct (http_get E url) as [r|e] eqn:Hr; [|done].
    destruct (error_status (Requests.status_code r)) eqn:Hst; [done|].
    destruct (html_parser E (Requests.text r)) as [t|e] eqn:Ht; [|done].
    exists r, t. injection Hcases as <- <-.
    split_and!; try done. by apply scrape_of_return.
  - left. exists e, tr. split; [done|]. by apply scrape_of_raise.
Qed.

Lemma scrape_success_inv E url flag d :
  (scrape E url flag).1 = Return d → success_record d →
  ∃ r t, http_get E url = Return r
    ∧ error_status (Requests.status_code r) = false
    ∧ html_parser E (Requests.text r) = Return t
    ∧ d = success url flag (Requests.status_code r)
            (decompose_all removed_tags t).
Proof.
  intros Hd Hs.
  destruct (scrape_run E url flag)
    as [(e & tr & _ & Hrun) | (r & t & Hr & Hst & Ht & _ & Hrun)];
    rewrite Hrun in Hd; injection Hd as <-.
  - by apply failure_not_success in Hs.
  - by exists r, t.
Qed.

Lemma scrape_content_inv E url flag d c :
  (scrape E url flag).1 = Return d → d !! "content" = Some (VStr c) →
  ∃ r t, http_get E url = Return r
    ∧ error_status (Requests.status_code r) = false
    ∧ html_parser E (Requests.text r) = Return t
    ∧ d = success url flag (Requests.status_code r)
            (decompose_all removed_tags t)
    ∧ c = Str.slice_to max_content
            (Bs4.get_text Str.LF (decompose_all removed_tags t)).
Proof.
  intros Hd Hc.
  destruct (scrape_run E url flag)
    as [(e & tr & _ & Hrun) | (r & t & Hr & Hst & Ht & _ & Hrun)];
    rewrite Hrun in Hd; injection Hd as <-.
  - done.
  - exists r, t. repeat split; try done.
    unfold success in Hc. destruct flag; by injection Hc as <-.
Qed.

Lemma set_if_found_lookup key el v (m : gmap string (option string)) k :
  set_if_found key el v m !! k
  = if decide (key = k) then
      match el with Some e => Some (v e) | None => m !! k end
    else m !! k.
Proof.
  unfold set_if_found. destruct el as [e|]; [|by destruct (decide _)].
  by rewrite lookup_insert.
Qed.

Lemma set_if_found_dom key el v (m : gmap string (option string)) :
  dom (set_if_found key el v m) ⊆ {[key]} ∪ dom m.
Proof.
  unfold set_if_found. destruct el; [|set_solver].
  rewrite dom_insert_L. set_solver.
Qed.

End scrape_runs.

(** ** Properties of [scrape] *)

Section scrape_properties.
Import Bs4 IO Main Outcome Pruned.

Lemma all_strings_stripped_origin t f :
  f ∈ all_strings_stripped t →
  ∃ cls s, Text cls s ∈ descendants t ∧ f = Str.strip s.
Proof.
  unfold all_strings_stripped. intros Hf.
  apply elem_of_flat_map in Hf as ([i nm a cs | cls s] & Hn & Hf).
  { by apply elem_of_nil in Hf. }
  destruct (bool_decide (cls ∈ interesting_string_types));
    [|by apply elem_of_nil in Hf].
  simpl in Hf. destruct (Str.is_empty (Str.strip s));
    [by apply elem_of_nil in Hf|].
  apply list_elem_of_singleton in Hf as ->. eauto.
Qed.

Lemma all_strings_stripped_trimmed t :
  Forall trimmed (all_strings_stripped t).
Proof.
  apply Forall_forall. intros f Hf.
  apply all_strings_stripped_origin in Hf as (cls & s & _ & ->).
  apply strip_trimmed.
Qed.

(** C1, as the code has it: a fetch that completes with status 404 makes
    [raise_for_status] raise an [HTTPError], which the first [except]
    clause turns into the failure record; the record is not a success
    record.  A success record comes only from a status outside 400..599
    and carries that status. *)
Theorem scrape_status_404_fails E url flag r :
  http_get E url = Return r →
  Requests.status_code r = 404%Z →
  (scrape E url flag).1
  = Return (failure "Error fetching URL: " url (http_error r))
  ∧ Exc.str (http_error r)
    = "404 Client Error: " +:+ Requests.reason r +:+ " for url: "
      +:+ Requests.url r
  ∧ failure_record (failure "Error fetching URL: " url (http_error r))
  ∧ ¬ success_record (failure "Error fetching URL: " url (http_error r))
  ∧ (∀ E' url' flag' d,
       (scrape E' url' flag').1 = Return d → success_record d →
       ∃ r', http_get E' url' = Return r'
         ∧ error_status (Requests.status_code r') = false
         ∧ d !! "status" = Some (VInt (Requests.status_code r'))).
Proof.
  intros Hr Hst. split_and!.
  - assert (Hbody : scrape_body E url flag
                    = (Raise (http_error r), [HttpGet url 10])).
    { rewrite scrape_body_eq. unfold scrape_body_cases.
      rewrite Hr. unfold error_status. by rewrite Hst. }
    by rewrite (scrape_of_raise _ _ _ _ _ Hbody).
  - unfold http_error. by rewrite Hst.
  - apply failure_is_failure.
  - apply failure_not_success.
  - intros E' url' flag' d Hd Hs.
    destruct (scrape_success_inv E' url' flag' d Hd Hs)
      as (r' & t & Hr' & Hst' & _ & ->).
    exists r'. split_and!; [done..|]. unfold success. by destruct flag'.
Qed.

(** C2: [scrape] always returns a record, never an exception; the record
    has exactly one of the two shapes; it is the record of the body when
    the body returned, and when the body raised [e] it is the failure
    record whose [error] is a fixed prefix followed by [str(e)]. *)
Theorem scrape_never_raises E url flag :
  ∃ d, (scrape E url flag).1 = Return d
    ∧ (success_record d ∧ ¬ failure_record d
       ∨ failure_record d ∧ ¬ success_record d)
    ∧ match (scrape_body E url flag).1 with
      | Return d' => d = d'
      | Raise e =>
          d = failure (scrape_prefix e) url e
          ∧ d !! "error" = Some (VStr (scrape_prefix e +:+ Exc.str e))
          ∧ d !! "url" = Some (VStr url)
          ∧ (scrape_prefix e = "Error fetching URL: "
             ∨ scrape_prefix e = "Error scraping content: ")
      end.
Proof.
  destruct (scrape_run E url flag)
    as [(e & tr & Hbody & Hrun) | (r & t & _ & _ & _ & Hbody & Hrun)];
    rewrite Hrun, Hbody; simpl.
  - exists (failure (scrape_prefix e) url e). split_and!; try done.
    + right. split; [apply failure_is_failure | apply failure_not_success].
    + unfold scrape_prefix. destruct (Exc.isinstance _ _); auto.
  - eexists. split_and!; try done.
    left. split; [apply success_is_success | apply success_not_failure].
Qed.

(** C3: the tree the text is read from holds no [script], [style] or
    [iframe] tag any more, and every fragment of [content] is the
    stripped text of a string of the parsed page that lies outside all
    such tags. *)
Theorem scrape_content_outside_removed E url flag d c :
  (scrape E url flag).1 = Return d →
  d !! "content" = Some (VStr c) →
  ∃ r t, http_get E url = Return r
    ∧ html_parser E (Requests.text r) = Return t
    ∧ (∀ n, n ∈ descendants (decompose_all removed_tags t) →
            matches removed_tags [] n = false)
    ∧ c = Str.slice_to max_content
            (Str.join Str.LF
               (all_strings_stripped (decompose_all removed_tags t)))
    ∧ Forall (λ f, ∃ cls s, outside removed_tags t (Text cls s)
                            ∧ f = Str.strip s)
        (all_strings_stripped (decompose_all removed_tags t)).
Proof.
  intros Hd Hc.
  destruct (scrape_content_inv E url flag d c Hd Hc)
    as (r & t & Hr & _ & Ht & _ & ->).
  exists r, t. split_and!; try done.
  - intros n. apply decompose_all_no_match.
  - apply Forall_forall. intros f Hf.
    apply all_strings_stripped_origin in Hf as (cls & s & Hin & ->).
    exists cls, s. split; [|done].
    by apply decompose_all_text_outside.
Qed.

(** C4: [content] has at most 5000 characters, whatever the size of the
    page.  The text it is cut from is the normalized text of the page:
    the strings left in the pruned tree of the parsed page, each stripped
    (no whitespace at either end), joined by newlines.  The cut is hard:
    [content] is the prefix of that text of length the smaller of 5000
    and the length of the text, wherever that falls. *)
Theorem scrape_content_bounded E url flag d c :
  (scrape E url flag).1 = Return d →
  d !! "content" = Some (VStr c) →
  String.length c ≤ 5000
  ∧ ∃ r t, http_get E url = Return r
      ∧ html_parser E (Requests.text r) = Return t
      ∧ Forall trimmed
          (all_strings_stripped (decompose_all removed_tags t))
      ∧ c = Str.slice_to 5000
              (Str.join Str.LF
                 (all_strings_stripped (decompose_all removed_tags t)))
      ∧ String.length c
        = Nat.min 5000
            (String.length
               (Str.join Str.LF
                  (all_strings_stripped (decompose_all removed_tags t))))
      ∧ ∃ rest,
          Str.join Str.LF
            (all_strings_stripped (decompose_all removed_tags t))
          = c +:+ rest.
Proof.
  intros Hd Hc.
  destruct (scrape_content_inv E url flag d c Hd Hc)
    as (r & t & Hr & _ & Ht & _ & ->).
  unfold get_text. change 5000 with max_content. split.
  - rewrite slice_to_length. apply Nat.le_min_l.
  - exists r, t. split_and!; try done.
    + apply all_strings_stripped_trimmed.
    + apply slice_to_length.
    + apply slice_to_prefix.
Qed.

End scrape_properties.

(** ** The metadata mapping *)

Section metadata.
Import Bs4 IO Main Outcome Pruned.

Lemma extract_metadata_dom pruned :
  dom (extract_metadata pruned)
  ⊆ {["title"; "description"; "keywords"; "og_title"; "og_description"]}.
Proof.
  unfold extract_metadata.
  repeat (etrans; [apply set_if_found_dom|]; apply union_least;
          [set_solver|]).
  rewrite dom_empty_L. set_solver.
Qed.

(** C5, as the code has it: a key is in the mapping exactly when its
    element is found in the pruned tree, and its value is whatever the
    element gives, [title.string] or [meta.get('content')], which is
    [None] when the element has no single string or no [content]
    attribute; nothing is raised. *)
Theorem scrape_metadata_keys E url d m :
  (scrape E url true).1 = Return d →
  d !! "metadata" = Some (VDict m) →
  ∃ r t, http_get E url = Return r
    ∧ html_parser E (Requests.text r) = Return t
    ∧ m !! "title"
      = string_of <$> find "title" [] (decompose_all removed_tags t)
    ∧ m !! "description"
      = Bs4.get "content"
        <$> find "meta" [("name", "description")]
              (decompose_all removed_tags t)
    ∧ m !! "keywords"
      = Bs4.get "content"
        <$> find "meta" [("name", "keywords")]
              (decompose_all removed_tags t)
    ∧ m !! "og_title"
      = Bs4.get "content"
        <$> find "meta" [("property", "og:title")]
              (decompose_all removed_tags t)
    ∧ m !! "og_description"
      = Bs4.get "content"
        <$> find "meta" [("property", "og:description")]
              (decompose_all removed_tags t)
    ∧ dom m ⊆ {["title"; "description"; "keywords"; "og_title";
                "og_description"]}.
Proof.
  intros Hd Hm.
  destruct (scrape_run E url true)
    as [(e & tr & _ & Hrun) | (r & t & Hr & _ & Ht & _ & Hrun)];
    rewrite Hrun in Hd; injection Hd as <-; [done|].
  assert (m = extract_metadata (decompose_all removed_tags t)) as ->.
  { by injection Hm as <-. }
  exists r, t. split_and!; try done;
    try (unfold extract_metadata; rewrite !set_if_found_lookup; simpl;
         by destruct (find _ _ _)).
  apply extract_metadata_dom.
Qed.

(** C6: without the flag the record has no [metadata] key, whichever way
    the call ends; a success record then has exactly the keys [content],
    [url] and [status], holding the truncated text, the input URL and the
    status of the fetch. *)
Theorem scrape_without_metadata E url d :
  (scrape E url false).1 = Return d →
  d !! "metadata" = None
  ∧ (success_record d →
     dom d = {["content"; "url"; "status"]}
     ∧ ∃ r t, http_get E url = Return r
         ∧ html_parser E (Requests.text r) = Return t
         ∧ d !! "content"
           = Some (VStr (Str.slice_to max_content
                           (get_text Str.LF
                              (decompose_all removed_tags t))))
         ∧ d !! "url" = Some (VStr url)
         ∧ d !! "status" = Some (VInt (Requests.status_code r))).
Proof.
  intros Hd. split.
  - destruct (scrape_run E url false)
      as [(e & tr & _ & Hrun) | (r & t & _ & _ & _ & _ & Hrun)];
      rewrite Hrun in Hd; by injection Hd as <-.
  - intros Hs.
    destruct (scrape_success_inv E url false d Hd Hs)
      as (r & t & Hr & _ & Ht & ->).
    split; [apply (success_dom url false)|]. by exists r, t.
Qed.

(** C10: with the flag a success record always has the [metadata] key;
    its value is the mapping built from the pruned tree, which is empty
    when none of the five elements is found. *)
Theorem scrape_with_metadata E url d :
  (scrape E url true).1 = Return d →
  success_record d →
  ∃ r t m, http_get E url = Return r
    ∧ html_parser E (Requests.text r) = Return t
    ∧ d !! "metadata" = Some (VDict m)
    ∧ m = extract_metadata (decompose_all removed_tags t)
    ∧ (find "title" [] (decompose_all removed_tags t) = None →
       find "meta" [("name", "description")]
         (decompose_all removed_tags t) = None →
       find "meta" [("name", "keywords")]
         (decompose_all removed_tags t) = None →
       find "meta" [("property", "og:title")]
         (decompose_all removed_tags t) = None →
       find "meta" [("property", "og:description")]
         (decompose_all removed_tags t) = None →
       m = ∅).
Proof.
  intros Hd Hs.
  destruct (scrape_success_inv E url true d Hd Hs)
    as (r & t & Hr & _ & Ht & ->).
  exists r, t, (extract_metadata (decompose_all removed_tags t)).
  split_and!; try done.
  unfold extract_metadata. by intros -> -> -> -> ->.
Qed.

End metadata.

(** ** Properties of [search] *)

Section search_properties.
Import IO Main Outcome.

Lemma search_of_raise E key query e tr :
  getenv E "SERPER_API_KEY" = Some key → key ≠ EmptyString →
  search_body E key query = (Raise e, tr) →
  search E query
  = (Return (search_prefix e +:+ Exc.str e),
     tr ++ [Stderr (search_prefix e +:+ Exc.str e)]).
Proof.
  intros Hkey Hne Hbody. unfold search. rewrite Hkey.
  destruct key as [|k key]; [done|].
  unfold try_except. rewrite Hbody. unfold search_prefix. simpl.
  destruct (Exc.isinstance e Exc.RequestException); [done|].
  destruct (Exc.isinstance e Exc.JSONDecodeError); [done|].
  by rewrite isinstance_Exception.
Qed.

Lemma search_of_return E key query s tr :
  getenv E "SERPER_API_KEY" = Some key → key ≠ EmptyString →
  search_body E key query = (Return s, tr) →
  search E query = (Return s, tr).
Proof.
  intros Hkey Hne Hbody. unfold search. rewrite Hkey.
  destruct key as [|k key]; [done|].
  unfold try_except. by rewrite Hbody.
Qed.

(** The body of [search] once the API answered with a JSON object. *)
Lemma search_body_object E key query r kvs :
  http_post E search_url key query 2 = Return r →
  error_status (Requests.status_code r) = false →
  json_loads E (Requests.text r) = Return (Json.JDict kvs) →
  search_body E key query
  = (Return
       (let organic_results :=
          from_option id (Json.JList []) (Json.lookup_key "organic" kvs) in
        if Json.truthy organic_results then Json.dumps 2 organic_results
        else no_results),
     [HttpPost search_url key query 2 10]).
Proof.
  intros Hr Hst Hjson.
  unfold search_body, session_post, call, response_json, lift.
  fold search_url. rewrite Hr. unfold mbind, io_bind.
  rewrite raise_for_status_ok by done. rewrite Hjson. simpl.
  by destruct (Json.truthy _).
Qed.

(** C7: when the parsed response is an object whose [organic] entry is
    missing or an empty list, [search] returns the sentinel text, which
    is not the JSON text of an empty list; when the entry is a non-empty
    list, [search] returns that list written by [json.dumps] with
    [indent=2]. *)
Theorem search_organic_results E query key r kvs :
  getenv E "SERPER_API_KEY" = Some key → key ≠ EmptyString →
  http_post E search_url key query 2 = Return r →
  error_status (Requests.status_code r) = false →
  json_loads E (Requests.text r) = Return (Json.JDict kvs) →
  (Json.lookup_key "organic" kvs = None
   ∨ Json.lookup_key "organic" kvs = Some (Json.JList []) →
   (search E query).1 = Return "No results found for the query")
  ∧ (∀ x l, Json.lookup_key "organic" kvs = Some (Json.JList (x :: l)) →
       (search E query).1 = Return (Json.dumps 2 (Json.JList (x :: l))))
  ∧ "No results found for the query" ≠ Json.dumps 2 (Json.JList []).
Proof.
  intros Hkey Hne Hr Hst Hjson.
  pose proof (search_body_object E key query r kvs Hr Hst Hjson) as Hbody.
  apply (search_of_return E key query _ _ Hkey Hne) in Hbody.
  rewrite Hbody. split_and!.
  - by intros [-> | ->].
  - by intros x l ->.
  - done.
Qed.

(** C8: when [SERPER_API_KEY] is unset (or set to the empty string),
    [search] returns the message naming the variable, after writing it to
    the diagnostic stream, and makes no HTTP call. *)
Theorem search_without_credential E query :
  getenv E "SERPER_API_KEY" = None
  ∨ getenv E "SERPER_API_KEY" = Some EmptyString →
  search E query
  = (Return "Error: SERPER_API_KEY environment variable is not set",
     [Stderr "Error: SERPER_API_KEY environment variable is not set"])
  ∧ Str.contains "SERPER_API_KEY"
      "Error: SERPER_API_KEY environment variable is not set" = true
  ∧ http_calls (search E query).2 = [].
Proof.
  intros Hkey. unfold search.
  destruct Hkey as [-> | ->]; by split_and!.
Qed.

(** C9, as the code has it: the failure record of [scrape] holds the
    input URL under [url].  An error result of [search] is built without
    the query: when the key is unset or empty it is the one fixed text,
    for every query; when the body raises [e] it is one of three fixed
    prefixes followed by [str(e)], so two queries whose attempts raise
    the same exception get the same result. *)
Theorem error_payload_correlation E :
  (∀ url flag d,
     (scrape E url flag).1 = Return d → failure_record d →
     d !! "url" = Some (VStr url))
  ∧ (getenv E "SERPER_API_KEY" = None
     ∨ getenv E "SERPER_API_KEY" = Some EmptyString →
     ∀ query,
       (search E query).1
       = Return "Error: SERPER_API_KEY environment variable is not set")
  ∧ (∀ query key e,
       getenv E "SERPER_API_KEY" = Some key → key ≠ EmptyString →
       (search_body E key query).1 = Raise e →
       (search E query).1 = Return (search_prefix e +:+ Exc.str e)
       ∧ (search_prefix e = "Error making API request: "
          ∨ search_prefix e = "Error parsing API response: "
          ∨ search_prefix e = "Error occurred during search: "))
  ∧ (∀ query1 query2 key e,
       getenv E "SERPER_API_KEY" = Some key → key ≠ EmptyString →
       (search_body E key query1).1 = Raise e →
       (search_body E key query2).1 = Raise e →
       (search E query1).1 = (search E query2).1).
Proof.
  assert (Hraise : ∀ query key e,
            getenv E "SERPER_API_KEY" = Some key → key ≠ EmptyString →
            (search_body E key query).1 = Raise e →
            (search E query).1 = Return (search_prefix e +:+ Exc.str e)).
  { intros query key e Hkey Hne Hbody.
    destruct (search_body E key query) as [res tr] eqn:Hb.
    simpl in Hbody. subst res.
    by rewrite (search_of_raise E key query e tr Hkey Hne Hb). }
  split_and!.
  - intros url flag d Hd Hf.
    destruct (scrape_run E url flag)
      as [(e & tr & _ & Hrun) | (r & t & _ & _ & _ & _ & Hrun)];
      rewrite Hrun in Hd; injection Hd as <-; [done|].
    by apply success_not_failure in Hf.
  - intros Hkey query. unfold search. by destruct Hkey as [-> | ->].
  - intros query key e Hkey Hne Hbody. split; [by apply (Hraise _ key)|].
    unfold search_prefix.
    destruct (Exc.isinstance e Exc.RequestException); [by left|].
    destruct (Exc.isinstance e Exc.JSONDecodeError); auto.
  - intros query1 query2 key e Hkey Hne Hb1 Hb2.
    by rewrite (Hraise query1 key e), (Hraise query2 key e).
Qed.

End search_properties.

(** ** The properties at work on concrete pages *)

Section runs.
Import Bs4 IO Main Outcome Pruned Example.

(** C1 as stated fails: the fetch of [gone] completes with status 404 and
    [scrape] returns the failure record, not a success record with
    [status] 404. *)
Lemma scrape_status_404_not_success :
  http_get env_404 gone = Return response_404
  ∧ Requests.status_code response_404 = 404%Z
  ∧ (scrape env_404 gone true).1
    = Return (failure "Error fetching URL: " gone
                (Exc.Exn Exc.HTTPError
                   "404 Client Error: Not Found for url: http://example.org/gone"))
  ∧ ¬ (∃ d, (scrape env_404 gone true).1 = Return d
            ∧ success_record d ∧ d !! "status" = Some (VInt 404)).
Proof.
  assert (Hrun : (scrape env_404 gone true).1
                 = Return (failure "Error fetching URL: " gone
                             (http_error response_404)))
    by reflexivity.
  split_and!; [reflexivity..|].
  intros (d & Hd & Hs & _). rewrite Hrun in Hd. injection Hd as <-.
  by apply failure_not_success in Hs.
Qed.

(** A [try] whose clauses do not cover the class of the exception lets it
    through: the last clause of the two tools, [except Exception], is what
    keeps them from raising. *)
Example try_except_propagates :
  try_except (raise (Exc.Exn Exc.AttributeError "no attribute"))
    [(Exc.RequestException, scrape_handler "Error fetching URL: " home)]
  = (Raise (Exc.Exn Exc.AttributeError "no attribute"), []).
Proof. reflexivity. Qed.

(** [json.dumps([{"title": "Rocq", "position": 1}], indent=2)] *)
Example dumps_hit :
  Json.dumps 2 (Json.JList [hit])
  = "[" +:+ Str.LF
    +:+ "  {" +:+ Str.LF
    +:+ "    " +:+ Str.QUOTE +:+ "title" +:+ Str.QUOTE +:+ ": "
    +:+ Str.QUOTE +:+ "Rocq" +:+ Str.QUOTE +:+ "," +:+ Str.LF
    +:+ "    " +:+ Str.QUOTE +:+ "position" +:+ Str.QUOTE +:+ ": 1"
    +:+ Str.LF
    +:+ "  }" +:+ Str.LF
    +:+ "]".
Proof. reflexivity. Qed.

(** The page of the specification's example: the text of the [script] is
    not in [content], and the mapping holds [title] and [description]
    only. *)
Example scrape_page :
  scrape (env_page 200 "OK" page) home true
  = (Return
       (<["metadata" :=
            VDict (<["description" := Some "D"]> {["title" := Some "T"]})]>
          (<["status" := VInt 200]>
             (<["url" := VStr home]>
                {["content" := VStr ("T" +:+ Str.LF +:+ "Hello")]}))),
     [HttpGet home 10]).
Proof. reflexivity. Qed.

(** On the page of the example the loop leaves the tree without its
    [script] element, as [remove_tags] describes it. *)
Example page_pruned :
  decompose_all removed_tags page
  = [Tag 0 "html" ∅
       [Tag 1 "head" ∅
          [Tag 2 "title" ∅ [Text NavigableString "T"];
           Tag 3 "meta" (<["content" := "D"]> {["name" := "description"]})
             []];
        Tag 4 "body" ∅ [Tag 6 "p" ∅ [Text NavigableString "Hello"]]]].
Proof.
  rewrite decompose_all_remove_tags; [reflexivity|].
  apply (bool_decide_unpack (NoDup (idents (descendants page)))).
  by vm_compute.
Qed.

Lemma scrape_status_404_fails_witness :
  http_get env_404 gone = Return response_404
  ∧ Requests.status_code response_404 = 404%Z
  ∧ (scrape env_404 gone true).1
    = Return (failure "Error fetching URL: " gone
                (http_error response_404)).
Proof.
  split; [reflexivity|]. split; [reflexivity|].
  exact (proj1 (scrape_status_404_fails env_404 gone true response_404
                  eq_refl eq_refl)).
Defined.

Lemma scrape_never_raises_witness :
  ∃ d, (scrape env_offline home true).1 = Return d
    ∧ (success_record d ∧ ¬ failure_record d
       ∨ failure_record d ∧ ¬ success_record d).
Proof.
  destruct (scrape_never_raises env_offline home true) as (d & Hd & Hs & _).
  by exists d.
Defined.

Lemma scrape_content_outside_removed_witness :
  (scrape (env_page 200 "OK" page) home true).1
  = Return (success home true 200 (decompose_all removed_tags page))
  ∧ success home true 200 (decompose_all removed_tags page) !! "content"
    = Some (VStr ("T" +:+ Str.LF +:+ "Hello"))
  ∧ ∃ r t, http_get (env_page 200 "OK" page) home = Return r
      ∧ html_parser (env_page 200 "OK" page) (Requests.text r) = Return t
      ∧ (∀ n, n ∈ descendants (decompose_all removed_tags t) →
              matches removed_tags [] n = false)
      ∧ "T" +:+ Str.LF +:+ "Hello"
        = Str.slice_to max_content
            (Str.join Str.LF
               (all_strings_stripped (decompose_all removed_tags t)))
      ∧ Forall (λ f, ∃ cls s, outside removed_tags t (Text cls s)
                              ∧ f = Str.strip s)
          (all_strings_stripped (decompose_all removed_tags t)).
Proof.
  split; [reflexivity|]. split; [reflexivity|].
  apply (scrape_content_outside_removed (env_page 200 "OK" page) home true
           (success home true 200 (decompose_all removed_tags page)));
    reflexivity.
Defined.

Lemma scrape_content_bounded_witness :
  (scrape (env_page 200 "OK" page) home false).1
  = Return (success home false 200 (decompose_all removed_tags page))
  ∧ success home false 200 (decompose_all removed_tags page) !! "content"
    = Some (VStr ("T" +:+ Str.LF +:+ "Hello"))
  ∧ String.length ("T" +:+ Str.LF +:+ "Hello") ≤ 5000
  ∧ ∃ r t, http_get (env_page 200 "OK" page) home = Return r
      ∧ html_parser (env_page 200 "OK" page) (Requests.text r) = Return t
      ∧ Forall trimmed
          (all_strings_stripped (decompose_all removed_tags t))
      ∧ "T" +:+ Str.LF +:+ "Hello"
        = Str.slice_to 5000
            (Str.join Str.LF
               (all_strings_stripped (decompose_all removed_tags t)))
      ∧ String.length ("T" +:+ Str.LF +:+ "Hello")
        = Nat.min 5000
            (String.length
               (Str.join Str.LF
                  (all_strings_stripped (decompose_all removed_tags t))))
      ∧ ∃ rest,
          Str.join Str.LF
            (all_strings_stripped (decompose_all removed_tags t))
          = ("T" +:+ Str.LF +:+ "Hello") +:+ rest.
Proof.
  split; [reflexivity|]. split; [reflexivity|].
  apply (scrape_content_bounded (env_page 200 "OK" page) home false
           (success home false 200 (decompose_all removed_tags page)));
    reflexivity.
Defined.

(** C5 as stated fails: on a page whose [title] is empty and whose
    description [meta] has no [content], both keys are in the mapping
    and both are mapped to [None]. *)
Lemma scrape_metadata_null_value :
  ∃ d m, (scrape (env_page 200 "OK" bare_page) home true).1 = Return d
    ∧ d !! "metadata" = Some (VDict m)
    ∧ find "meta" [("name", "description")]
        (decompose_all removed_tags bare_page)
      = Some (Tag 3 "meta" {["name" := "description"]} [])
    ∧ m !! "description" = Some None
    ∧ find "title" [] (decompose_all removed_tags bare_page)
      = Some (Tag 2 "title" ∅ [])
    ∧ m !! "title" = Some None.
Proof.
  exists (success home true 200 (decompose_all removed_tags bare_page)),
    (extract_metadata (decompose_all removed_tags bare_page)).
  split_and!; reflexivity.
Qed.

Lemma scrape_metadata_keys_witness :
  (scrape (env_page 200 "OK" page) home true).1
  = Return (success home true 200 (decompose_all removed_tags page))
  ∧ success home true 200 (decompose_all removed_tags page) !! "metadata"
    = Some (VDict (<["description" := Some "D"]> {["title" := Some "T"]}))
  ∧ dom (<["description" := Some "D"]>
           ({["title" := Some "T"]} : gmap string (option string)))
    ⊆ {["title"; "description"; "keywords"; "og_title";
        "og_description"]}.
Proof.
  split; [reflexivity|]. split; [reflexivity|].
  destruct (scrape_metadata_keys (env_page 200 "OK" page) home
              (success home true 200 (decompose_all removed_tags page))
              (<["description" := Some "D"]> {["title" := Some "T"]})
              eq_refl eq_refl)
    as (r & t & _ & _ & _ & _ & _ & _ & _ & Hdom).
  exact Hdom.
Defined.

Lemma scrape_without_metadata_witness :
  (scrape (env_page 200 "OK" page) home false).1
  = Return (success home false 200 (decompose_all removed_tags page))
  ∧ success home false 200 (decompose_all removed_tags page) !! "metadata"
    = None.
Proof.
  split; [reflexivity|].
  exact (proj1 (scrape_without_metadata (env_page 200 "OK" page) home
                  (success home false 200
                     (decompose_all removed_tags page)) eq_refl)).
Defined.

Lemma scrape_with_metadata_witness :
  (scrape (env_page 200 "OK" plain_page) home true).1
  = Return (success home true 200 (decompose_all removed_tags plain_page))
  ∧ success_record
      (success home true 200 (decompose_all removed_tags plain_page))
  ∧ success home true 200 (decompose_all removed_tags plain_page)
    !! "metadata" = Some (VDict ∅).
Proof.
  split; [reflexivity|]. split; [right; reflexivity|].
  destruct (scrape_with_metadata (env_page 200 "OK" plain_page) home
              (success home true 200
                 (decompose_all removed_tags plain_page))
              eq_refl (or_intror eq_refl))
    as (r & t & m & _ & Ht & Hm & _ & Hempty).
  injection Ht as <-. rewrite Hm. do 2 f_equal.
  apply Hempty; reflexivity.
Defined.

Lemma search_organic_results_witness :
  getenv (env_search "k3y" (Json.JDict [("organic", Json.JList [hit])]))
    "SERPER_API_KEY" = Some "k3y"
  ∧ "k3y" ≠ EmptyString
  ∧ http_post (env_search "k3y" (Json.JDict [("organic", Json.JList [hit])]))
      search_url "k3y" "rocq" 2 = Return response_api
  ∧ error_status (Requests.status_code response_api) = false
  ∧ json_loads (env_search "k3y" (Json.JDict [("organic", Json.JList [hit])]))
      (Requests.text response_api)
    = Return (Json.JDict [("organic", Json.JList [hit])])
  ∧ (search (env_search "k3y" (Json.JDict [("organic", Json.JList [hit])]))
       "rocq").1
    = Return (Json.dumps 2 (Json.JList [hit])).
Proof.
  split_and!; [reflexivity | discriminate | reflexivity..|].
  refine (proj1 (proj2 (search_organic_results
                          (env_search "k3y" _) "rocq" "k3y" response_api
                          [("organic", Json.JList [hit])]
                          eq_refl _ eq_refl eq_refl eq_refl)) hit [] eq_refl).
  discriminate.
Defined.

Lemma search_without_credential_witness :
  getenv env_offline "SERPER_API_KEY" = None
  ∧ http_calls (search env_offline "rocq").2 = [].
Proof.
  split; [reflexivity|].
  apply (search_without_credential env_offline "rocq"). by left.
Defined.

(** C9 as stated fails for [search]: neither the text about the missing
    key nor the text of a failed request holds the query. *)
Lemma search_error_drops_query :
  (search env_offline "rocq prover").1 = Return no_credential
  ∧ Str.contains "rocq prover" no_credential = false
  ∧ (search (env_down "k3y") "rocq prover").1
    = Return "Error making API request: Connection refused"
  ∧ Str.contains "rocq prover"
      "Error making API request: Connection refused" = false.
Proof. split_and!; reflexivity. Qed.

Lemma error_payload_correlation_witness :
  (scrape env_offline home true).1
  = Return (failure "Error fetching URL: " home unreachable_exn)
  ∧ failure_record (failure "Error fetching URL: " home unreachable_exn)
  ∧ failure "Error fetching URL: " home unreachable_exn !! "url"
    = Some (VStr home)
  ∧ getenv env_offline "SERPER_API_KEY" = None
  ∧ (search env_offline "rocq").1 = Return no_credential
  ∧ getenv (env_down "k3y") "SERPER_API_KEY" = Some "k3y"
  ∧ "k3y" ≠ EmptyString
  ∧ (search_body (env_down "k3y") "k3y" "rocq").1 = Raise unreachable_exn
  ∧ (search_body (env_down "k3y") "k3y" "coq").1 = Raise unreachable_exn
  ∧ (search (env_down "k3y") "rocq").1
    = Return ("Error making API request: " +:+ Exc.str unreachable_exn)
  ∧ (search (env_down "k3y") "rocq").1 = (search (env_down "k3y") "coq").1.
Proof.
  destruct (error_payload_correlation env_offline) as (Hurl & Hkey & _ & _).
  destruct (error_payload_correlation (env_down "k3y"))
    as (_ & _ & Hraise & Hsame).
  split_and!;
    [reflexivity | reflexivity | | reflexivity | | reflexivity | discriminate
    | reflexivity | reflexivity | | ].
  - apply (Hurl home true); reflexivity.
  - apply Hkey. left. reflexivity.
  - apply (Hraise "rocq" "k3y" unreachable_exn);
      [reflexivity | discriminate | reflexivity].
  - apply (Hsame "rocq" "coq" "k3y" unreachable_exn);
      [reflexivity | discriminate | reflexivity | reflexivity].
Defined.

End runs.

(** ** More on [search]: outcomes, calls and the diagnostic stream *)

Section search_runs.
Import IO Main Outcome Trace.

Lemma raise_for_status_trace r : (Requests.raise_for_status r).2 = [].
Proof.
  destruct (error_status (Requests.status_code r)) eqn:Hst.
  - by rewrite raise_for_status_error.
  - by rewrite raise_for_status_ok.
Qed.

Lemma search_body_trace E key query :
  (search_body E key query).2 = [HttpPost search_url key query 2 10].
Proof.
  unfold search_body, session_post, call, response_json, lift.
  fold search_url. unfold mbind, io_bind.
  destruct (http_post E search_url key query 2) as [r|e]; [|done].
  destruct (error_status (Requests.status_code r)) eqn:Hst.
  { by rewrite raise_for_status_error. }
  rewrite raise_for_status_ok by done.
  destruct (json_loads E (Requests.text r)) as [v|e]; [|done].
  destruct v as [| b | z | f | s | l | kvs]; try done.
  simpl. by destruct (Json.truthy _).
Qed.

(** How a call of [search] with a key ends: the body returned and so does
    [search], or the body raised and [search] returns the text it wrote to
    the diagnostic stream. *)
Lemma search_run E key query :
  getenv E "SERPER_API_KEY" = Some key → key ≠ EmptyString →
  (∃ s, search_body E key query
        = (Return s, [HttpPost search_url key query 2 10])
      ∧ search E query = (Return s, [HttpPost search_url key query 2 10]))
  ∨ (∃ e, search_body E key query
          = (Raise e, [HttpPost search_url key query 2 10])
        ∧ search E query
          = (Return (search_prefix e +:+ Exc.str e),
             [HttpPost search_url key query 2 10;
              Stderr (search_prefix e +:+ Exc.str e)])).
Proof.
  intros Hkey Hne. pose proof (search_body_trace E key query) as Htr.
  destruct (search_body E key query) as [[s|e] tr] eqn:Hbody;
    simpl in Htr; subst tr.
  - left. exists s. split; [done|]. by apply (search_of_return E key).
  - right. exists e. split; [done|].
    by rewrite (search_of_raise E key query e _ Hkey Hne Hbody).
Qed.

(** X1: [search] never raises: whatever the environment answers, the call
    returns a string. *)
Theorem search_never_raises E query :
  ∃ s, (search E query).1 = Return s.
Proof.
  destruct (getenv E "SERPER_API_KEY") as [key|] eqn:Hkey.
  - destruct (decide (key = EmptyString)) as [->|Hne].
    + unfold search. rewrite Hkey. by eexists.
    + destruct (search_run E key query Hkey Hne)
        as [(s & _ & Hrun) | (e & _ & Hrun)]; rewrite Hrun; by eexists.
  - unfold search. rewrite Hkey. by eexists.
Qed.

(** X2: with a key configured, [search] calls [session.post] exactly once,
    whatever comes of the call, and calls the session in no other way: the
    call is for the search endpoint, with the key, the query as given, the
    result count 2 and the timeout 10.  What the session sends for that
    call (nothing when it rejects the arguments, more when it follows
    redirects) is not counted. *)
Theorem search_single_post E query key :
  getenv E "SERPER_API_KEY" = Some key → key ≠ EmptyString →
  http_calls (search E query).2
  = [HttpPost "https://google.serper.dev/search" key query 2 10].
Proof.
  intros Hkey Hne.
  destruct (search_run E key query Hkey Hne)
    as [(s & _ & Hrun) | (e & _ & Hrun)]; by rewrite Hrun.
Qed.

(** X3: with a key configured, an error text that [search] returns is
    the one line it writes to the diagnostic stream, and a call whose body
    returns writes nothing there. *)
Theorem search_logs_what_it_returns E query key :
  getenv E "SERPER_API_KEY" = Some key → key ≠ EmptyString →
  match (search_body E key query).1 with
  | Return s =>
      (search E query).1 = Return s
      ∧ stderr_lines (search E query).2 = []
  | Raise e =>
      (search E query).1 = Return (search_prefix e +:+ Exc.str e)
      ∧ stderr_lines (search E query).2 = [search_prefix e +:+ Exc.str e]
  end.
Proof.
  intros Hkey Hne.
  destruct (search_run E key query Hkey Hne)
    as [(s & Hbody & Hrun) | (e & Hbody & Hrun)];
    by rewrite Hbody, Hrun.
Qed.

(** X4: when the search API answers with a status in 400..599, [search]
    returns the request-error text with the message of
    [raise_for_status], and the body of the answer is not looked at. *)
Theorem search_http_error_status E query key r :
  getenv E "SERPER_API_KEY" = Some key → key ≠ EmptyString →
  http_post E search_url key query 2 = Return r →
  error_status (Requests.status_code r) = true →
  (search E query).1
  = Return ("Error making API request: " +:+ Exc.str (http_error r)).
Proof.
  intros Hkey Hne Hr Hst.
  assert (Hbody : search_body E key query
                  = (Raise (http_error r),
                     [HttpPost search_url key query 2 10])).
  { unfold search_body, session_post, call. fold search_url. rewrite Hr.
    unfold mbind, io_bind. by rewrite raise_for_status_error. }
  by rewrite (search_of_raise E key query _ _ Hkey Hne Hbody).
Qed.

(** X5: the [except] clauses of [search] are tried in order.  An exception
    of [response.json()] that is a plain [json.JSONDecodeError] gives the
    parse-error text; one that is also a [RequestException], as the
    [JSONDecodeError] of [requests] is, is taken by the first clause and
    gives the request-error text. *)
Theorem search_malformed_json E query key r e :
  getenv E "SERPER_API_KEY" = Some key → key ≠ EmptyString →
  http_post E search_url key query 2 = Return r →
  error_status (Requests.status_code r) = false →
  json_loads E (Requests.text r) = Raise e →
  (Exc.class_of e = Exc.JSONDecodeError →
   (search E query).1
   = Return ("Error parsing API response: " +:+ Exc.str e))
  ∧ (Exc.class_of e = Exc.RequestsJSONDecodeError →
     (search E query).1
     = Return ("Error making API request: " +:+ Exc.str e)).
Proof.
  intros Hkey Hne Hr Hst Hjson.
  assert (Hbody : search_body E key query
                  = (Raise e, [HttpPost search_url key query 2 10])).
  { unfold search_body, session_post, call, response_json, lift.
    fold search_url. rewrite Hr. unfold mbind, io_bind.
    rewrite raise_for_status_ok by done. by rewrite Hjson. }
  rewrite (search_of_raise E key query _ _ Hkey Hne Hbody).
  destruct e as [c msg]. split; simpl; by intros ->.
Qed.

(** X6: when the parsed response is not an object, [results.get] raises
    [AttributeError] and [search] returns the general error text naming
    the type of the value. *)
Theorem search_non_object_response E query key r v :
  getenv E "SERPER_API_KEY" = Some key → key ≠ EmptyString →
  http_post E search_url key query 2 = Return r →
  error_status (Requests.status_code r) = false →
  json_loads E (Requests.text r) = Return v →
  (∀ kvs, v ≠ Json.JDict kvs) →
  (search E query).1
  = Return ("Error occurred during search: '" +:+ Json.type_name v
            +:+ "' object has no attribute 'get'").
Proof.
  intros Hkey Hne Hr Hst Hjson Hv.
  assert (Hbody : search_body E key query
                  = (Raise (Exc.Exn Exc.AttributeError
                              ("'" +:+ Json.type_name v
                               +:+ "' object has no attribute 'get'")),
                     [HttpPost search_url key query 2 10])).
  { unfold search_body, session_post, call, response_json, lift.
    fold search_url. rewrite Hr. unfold mbind, io_bind.
    rewrite raise_for_status_ok by done. rewrite Hjson.
    destruct v as [| b | z | f | s | l | kvs]; try done.
    by destruct (Hv kvs). }
  by rewrite (search_of_raise E key query _ _ Hkey Hne Hbody).
Qed.

(** X7: what decides between the sentinel and the JSON text is the truth
    value Python gives the [organic] entry, of whatever type: an entry
    that counts as false ([null], [false], [0], an empty string, list or
    object) gives the sentinel, any other entry is serialized. *)
Theorem search_organic_truthiness E query key r kvs v :
  getenv E "SERPER_API_KEY" = Some key → key ≠ EmptyString →
  http_post E search_url key query 2 = Return r →
  error_status (Requests.status_code r) = false →
  json_loads E (Requests.text r) = Return (Json.JDict kvs) →
  Json.lookup_key "organic" kvs = Some v →
  (search E query).1
  = Return (if Json.truthy v then Json.dumps 2 v
            else "No results found for the query").
Proof.
  intros Hkey Hne Hr Hst Hjson Hv.
  pose proof (search_body_object E key query r kvs Hr Hst Hjson) as Hbody.
  rewrite Hv in Hbody. simpl in Hbody.
  by rewrite (search_of_return E key query _ _ Hkey Hne Hbody).
Qed.

End search_runs.

(** ** More on [scrape]: calls, the diagnostic stream and the flag *)

Section scrape_more.
Import Bs4 IO Main Outcome Pruned Trace.

Lemma scrape_body_trace E url flag :
  (scrape_body E url flag).2 = [HttpGet url 10].
Proof.
  rewrite scrape_body_eq. unfold scrape_body_cases.
  destruct (http_get E url) as [r|e]; [|done].
  destruct (error_status (Requests.status_code r)); [done|].
  by destruct (html_parser E (Requests.text r)).
Qed.

(** The record and the trace of [scrape], from how its body ends. *)
Lemma scrape_result E url flag :
  scrape E url flag
  = match (scrape_body E url flag).1 with
    | Return d => (Return d, [HttpGet url 10])
    | Raise e =>
        (Return (failure (scrape_prefix e) url e),
         [HttpGet url 10; Stderr (scrape_prefix e +:+ Exc.str e)])
    end.
Proof.
  pose proof (scrape_body_trace E url flag) as Htr.
  destruct (scrape_body E url flag) as [[d|e] tr] eqn:Hbody;
    simpl in Htr; subst tr; simpl.
  - by apply scrape_of_return.
  - by rewrite (scrape_of_raise E url flag e _ Hbody).
Qed.

(** X8: [scrape] calls [session.get] exactly once, whatever comes of the
    call, and calls the session in no other way: the call is for the input
    URL as given, with the timeout 10.  What the session sends for that
    call (nothing when it rejects the URL, more when it follows redirects)
    is not counted. *)
Theorem scrape_single_get E url flag :
  http_calls (scrape E url flag).2 = [HttpGet url 10].
Proof.
  rewrite scrape_result.
  by destruct ((scrape_body E url flag).1).
Qed.

(** X9: the [error] text of a failure record is the one line [scrape]
    prints to the diagnostic stream with its own [print] calls; on a call
    that returns a success record none of the [print] calls of [scrape]
    runs.  What the libraries write to that stream themselves is not
    counted. *)
Theorem scrape_logs_what_it_returns E url flag d :
  (scrape E url flag).1 = Return d →
  (failure_record d →
   ∃ msg, d !! "error" = Some (VStr msg)
     ∧ stderr_lines (scrape E url flag).2 = [msg])
  ∧ (success_record d → stderr_lines (scrape E url flag).2 = []).
Proof.
  rewrite scrape_result.
  destruct ((scrape_body E url flag).1) as [d'|e] eqn:Hbody; simpl;
    intros [= <-]; split.
  - intros Hf. exfalso. revert Hf.
    destruct (scrape_run E url flag)
      as [(e & tr & Hb & _) | (r & t & _ & _ & _ & Hb & _)];
      rewrite Hb in Hbody; simpl in Hbody; [done|].
    injection Hbody as <-. apply success_not_failure.
  - done.
  - intros _. by eexists.
  - intros Hs. by apply failure_not_success in Hs.
Qed.

(** X10: the flag changes nothing but the [metadata] key: the record of a
    call with the flag, without that key, is the record of the same call
    without the flag. *)
Theorem scrape_flag_only_adds_metadata E url d1 d0 :
  (scrape E url true).1 = Return d1 →
  (scrape E url false).1 = Return d0 →
  delete "metadata" d1 = d0.
Proof.
  rewrite !scrape_result, !scrape_body_eq. unfold scrape_body_cases.
  destruct (http_get E url) as [r|e]; simpl.
  - destruct (error_status (Requests.status_code r)); simpl.
    { by intros [= <-] [= <-]. }
    destruct (html_parser E (Requests.text r)) as [t|e]; simpl.
    + intros [= <-] [= <-]. unfold success.
      rewrite delete_insert_eq. by apply delete_id.
    + by intros [= <-] [= <-].
  - by intros [= <-] [= <-].
Qed.

(** X11: which failure text [scrape] gives.  A fetch that raises a
    [RequestException] (connection failure, timeout) gives the
    fetch-error text; a page the parser rejects with any other exception
    gives the scrape-error text. *)
Theorem scrape_failure_texts E url flag :
  (∀ e, http_get E url = Raise e →
        Exc.isinstance e Exc.RequestException = true →
        (scrape E url flag).1
        = Return (failure "Error fetching URL: " url e))
  ∧ (∀ r e, http_get E url = Return r →
            error_status (Requests.status_code r) = false →
            html_parser E (Requests.text r) = Raise e →
            Exc.isinstance e Exc.RequestException = false →
            (scrape E url flag).1
            = Return (failure "Error scraping content: " url e)).
Proof.
  split.
  - intros e He Hcls. rewrite scrape_result, scrape_body_eq.
    unfold scrape_body_cases. rewrite He. simpl.
    unfold scrape_prefix. by rewrite Hcls.
  - intros r e Hr Hst He Hcls. rewrite scrape_result, scrape_body_eq.
    unfold scrape_body_cases. rewrite Hr, Hst, He. simpl.
    unfold scrape_prefix. by rewrite Hcls.
Qed.

End scrape_more.

(** ** More on the pruned tree: what is kept and where metadata comes from *)

Section pruned_more.
Import Bs4 IO Main Outcome Pruned Trace.

Lemma remove_tags_keeps_outside names t c s :
  outside names t (Text c s) →
  Text c s ∈ descendants (remove_tags names t).
Proof.
  intros Hout. remember (Text c s) as n eqn:Hn.
  induction Hout as [t n Hin | t i nm a cs n Hin Hnm Hout IH]; subst n.
  - apply descendants_top. apply elem_of_flat_map.
    exists (Text c s). split; [done|]. simpl. by apply list_elem_of_singleton.
  - apply (descendants_below _ i nm a (remove_tags names cs)); [|by apply IH].
    apply elem_of_flat_map. exists (Tag i nm a cs). split; [done|].
    simpl. rewrite bool_decide_eq_false_2 by done.
    by apply list_elem_of_singleton.
Qed.

Lemma extract_ids_node_tag_outside names ids n :
  (∀ i nm a cs, Tag i nm a cs ∈ subtree n → nm ∈ names → i ∈ ids) →
  ∀ i nm a cs', Tag i nm a cs' ∈ descendants (extract_ids_node ids n) →
    ∃ cs, outside names [n] (Tag i nm a cs) ∧ cs' = extract_ids ids cs.
Proof.
  induction n as [j nm0 a0 cs0 IH | c0 s0] using node_ind';
    intros Hcov i nm a cs'; cbn [extract_ids_node].
  - destruct (bool_decide (j ∈ ids)) eqn:Hj.
    { intros Hin. by apply elem_of_nil in Hin. }
    apply bool_decide_eq_false in Hj.
    rewrite descendants_singleton, elem_of_subtree_Tag.
    intros [[= -> -> -> ->] | Hin].
    + exists cs0. split; [|done].
      apply outside_here. by apply list_elem_of_singleton.
    + apply descendants_extract_ids in Hin as (x & Hx & Hin).
      rewrite Forall_forall in IH.
      destruct (IH x Hx) with (i := i) (nm := nm) (a := a) (cs' := cs')
        as (cs & Hout & Hcs); [|done|].
      { intros i' nm' a' cs'' Hsub. apply (Hcov i' nm' a' cs'').
        apply elem_of_subtree_Tag. right. apply elem_of_descendants. eauto. }
      exists cs. split; [|done].
      apply (outside_below names _ j nm0 a0 cs0).
      * by apply list_elem_of_singleton.
      * intros Hnm. apply Hj, (Hcov j nm0 a0 cs0); [apply subtree_self|done].
      * by apply (outside_weaken names x).
  - rewrite descendants_singleton, elem_of_subtree_Text. done.
Qed.

Lemma decompose_all_tag_outside names t i nm a cs' :
  Tag i nm a cs' ∈ descendants (decompose_all names t) →
  ∃ cs, outside names t (Tag i nm a cs)
    ∧ cs' = extract_ids (idents (find_all names [] t)) cs.
Proof.
  rewrite decompose_all_extract_ids. intros Hin.
  apply descendants_extract_ids in Hin as (x & Hx & Hin).
  destruct (extract_ids_node_tag_outside names
              (idents (find_all names [] t)) x) with
    (i := i) (nm := nm) (a := a) (cs' := cs') as (cs & Hout & Hcs);
    [|done|].
  { intros i' nm' a' cs'' Hsub. apply (find_all_covers names t i' nm' a' cs'').
    apply elem_of_descendants. eauto. }
  exists cs. split; [|done]. by apply (outside_weaken names x).
Qed.

(** An element [find] returns on the pruned tree is a tag of the asked
    name and attributes that, in the page, has none of the removed tags
    above it; its children are those of the page less the objects the
    loop detached. *)
Lemma find_in_pruned names name want t el :
  find name want (decompose_all names t) = Some el →
  ∃ i a cs, el = Tag i name a
                   (extract_ids (idents (find_all names [] t)) cs)
    ∧ attrs_match want a = true
    ∧ outside names t (Tag i name a cs).
Proof.
  unfold find. intros Hhead. apply head_Some_elem_of in Hhead.
  apply list_elem_of_filter in Hhead as [Hm Hin].
  destruct el as [i nm a cs' | c s]; [|done]. simpl in Hm.
  apply andb_true_iff in Hm as [Hnm Ha].
  apply bool_decide_eq_true, list_elem_of_singleton in Hnm as ->.
  destruct (decompose_all_tag_outside names t i name a cs' Hin)
    as (cs & Hout & ->).
  by exists i, a, cs.
Qed.

Lemma attrs_match_single key val (a : gmap string string) :
  attrs_match [(key, val)] a = true → a !! key = Some val.
Proof.
  simpl. rewrite andb_true_r. apply bool_decide_eq_true.
Qed.

(** Where an entry of the mapping comes from, key by key. *)
Lemma extract_metadata_source pruned k v :
  extract_metadata pruned !! k = Some v →
  (k = "title"
   ∧ ∃ el, find "title" [] pruned = Some el ∧ v = string_of el)
  ∨ (k = "description"
     ∧ ∃ el, find "meta" [("name", "description")] pruned = Some el
         ∧ v = Bs4.get "content" el)
  ∨ (k = "keywords"
     ∧ ∃ el, find "meta" [("name", "keywords")] pruned = Some el
         ∧ v = Bs4.get "content" el)
  ∨ (k = "og_title"
     ∧ ∃ el, find "meta" [("property", "og:title")] pruned = Some el
         ∧ v = Bs4.get "content" el)
  ∨ (k = "og_description"
     ∧ ∃ el, find "meta" [("property", "og:description")] pruned = Some el
         ∧ v = Bs4.get "content" el).
Proof.
  unfold extract_metadata. rewrite !set_if_found_lookup.
  repeat case_decide; subst; try done;
    repeat match goal with
           | |- context [find ?n ?w pruned] =>
               destruct (find n w pruned) eqn:?
           end;
    intros Hk; try done; injection Hk as <-; eauto 10.
Qed.

Lemma all_strings_stripped_interesting t f :
  f ∈ all_strings_stripped t →
  f ≠ EmptyString
  ∧ ∃ cls s, (cls = NavigableString ∨ cls = CData)
      ∧ Text cls s ∈ descendants t ∧ f = Str.strip s.
Proof.
  unfold all_strings_stripped. intros Hf.
  apply elem_of_flat_map in Hf as ([i nm a cs | cls s] & Hn & Hf).
  { by apply elem_of_nil in Hf. }
  destruct (bool_decide (cls ∈ interesting_string_types)) eqn:Hcls;
    [|by apply elem_of_nil in Hf].
  apply bool_decide_eq_true in Hcls.
  simpl in Hf. destruct (Str.is_empty (Str.strip s)) eqn:He;
    [by apply elem_of_nil in Hf|].
  apply list_elem_of_singleton in Hf as ->. split.
  - intros Heq. by rewrite Heq in He.
  - exists cls, s. split_and!; [|done..].
    unfold interesting_string_types in Hcls.
    apply elem_of_cons in Hcls as [->|Hcls]; [by left|].
    apply list_elem_of_singleton in Hcls as ->. by right.
Qed.

(** X12: when the elements of the parsed page are distinct objects, the
    loop of [decompose] calls drops the [script], [style] and [iframe]
    subtrees and nothing else: [content] is the truncated text of the
    page without those subtrees. *)
Theorem scrape_content_of_pruned_page E url flag r t :
  http_get E url = Return r →
  error_status (Requests.status_code r) = false →
  html_parser E (Requests.text r) = Return t →
  NoDup (idents (descendants t)) →
  decompose_all removed_tags t = remove_tags removed_tags t
  ∧ ∃ d, (scrape E url flag).1 = Return d
      ∧ d !! "content"
        = Some (VStr (Str.slice_to max_content
                        (get_text Str.LF (remove_tags removed_tags t)))).
Proof.
  intros Hr Hst Ht Hnd.
  pose proof (decompose_all_remove_tags removed_tags t Hnd) as Hprune.
  split; [done|].
  rewrite scrape_result, scrape_body_eq. unfold scrape_body_cases.
  rewrite Hr, Hst, Ht. simpl. eexists. split; [done|].
  rewrite Hprune. unfold success. by destruct flag.
Qed.

(** X13: when the elements of the parsed page are distinct objects, a
    string is in the tree the text is read from exactly when it is in the
    page with no [script], [style] or [iframe] above it: no visible string
    is lost by the pruning. *)
Theorem pruning_keeps_visible_strings t c s :
  NoDup (idents (descendants t)) →
  Text c s ∈ descendants (decompose_all removed_tags t)
  ↔ outside removed_tags t (Text c s).
Proof.
  intros Hnd. split.
  - apply decompose_all_text_outside.
  - rewrite (decompose_all_remove_tags removed_tags t Hnd).
    apply remove_tags_keeps_outside.
Qed.

(** X14: every entry of the metadata mapping comes from an element of
    the page that has no [script], [style] or [iframe] above it, and its
    value is read from that element: [title] holds the [string] of such a
    [title] element (its children less what the loop detached), and each
    of the other four keys holds the [content] attribute of such a [meta]
    element with the attribute the key asks for.  So a title that sits
    only inside an [iframe] is never reported. *)
Theorem scrape_metadata_outside_removed E url d m k v :
  (scrape E url true).1 = Return d →
  d !! "metadata" = Some (VDict m) →
  m !! k = Some v →
  ∃ r t i a cs, http_get E url = Return r
    ∧ html_parser E (Requests.text r) = Return t
    ∧ ((k = "title"
        ∧ outside removed_tags t (Tag i "title" a cs)
        ∧ v = string_of
                (Tag i "title" a
                   (extract_ids (idents (find_all removed_tags [] t)) cs)))
       ∨ (k = "description"
          ∧ outside removed_tags t (Tag i "meta" a cs)
          ∧ a !! "name" = Some "description" ∧ v = a !! "content")
       ∨ (k = "keywords"
          ∧ outside removed_tags t (Tag i "meta" a cs)
          ∧ a !! "name" = Some "keywords" ∧ v = a !! "content")
       ∨ (k = "og_title"
          ∧ outside removed_tags t (Tag i "meta" a cs)
          ∧ a !! "property" = Some "og:title" ∧ v = a !! "content")
       ∨ (k = "og_description"
          ∧ outside removed_tags t (Tag i "meta" a cs)
          ∧ a !! "property" = Some "og:description"
          ∧ v = a !! "content")).
Proof.
  intros Hd Hm Hk.
  destruct (scrape_run E url true)
    as [(e & tr & _ & Hrun) | (r & t & Hr & _ & Ht & _ & Hrun)];
    rewrite Hrun in Hd; injection Hd as <-; [done|].
  assert (m = extract_metadata (decompose_all removed_tags t)) as ->.
  { by injection Hm as <-. }
  apply extract_metadata_source in Hk
    as [(-> & el & Hfind & ->) | [(-> & el & Hfind & ->)
       | [(-> & el & Hfind & ->) | [(-> & el & Hfind & ->)
       | (-> & el & Hfind & ->)]]]];
    apply find_in_pruned in Hfind as (i & a & cs & -> & Ha & Hout);
    exists r, t, i, a, cs; (split; [done|]); (split; [done|]).
  - left. done.
  - right; left. split_and!; try done. by apply attrs_match_single.
  - do 2 right; left. split_and!; try done. by apply attrs_match_single.
  - do 3 right; left. split_and!; try done. by apply attrs_match_single.
  - do 4 right. split_and!; try done. by apply attrs_match_single.
Qed.


End pruned_more.

(** ** More on [content] and [url] *)

Section content_more.
Import Bs4 IO Main Outcome Pruned Trace.

Lemma slice_to_all n s : String.length s ≤ n → Str.slice_to n s = s.
Proof.
  unfold Str.slice_to. revert s.
  induction n as [|n IH]; intros [|c s]; simpl; intros Hlen;
    [done | lia | done |].
  f_equal. apply IH. lia.
Qed.

Lemma slice_to_String n c s :
  Str.slice_to (S n) (String c s) = String c (Str.slice_to n s).
Proof. reflexivity. Qed.

Lemma join_head sep f fs :
  ∃ rest, Str.join sep (f :: fs) = f +:+ rest.
Proof.
  unfold Str.join. destruct fs as [|f' fs]; simpl.
  - exists EmptyString. induction f as [|c f IH]; [done|].
    rewrite app_String. by f_equal.
  - by eexists.
Qed.

(** X16: a text of at most 5000 characters is returned whole as
    [content]; a longer one is cut to exactly 5000 characters. *)
Theorem scrape_content_truncation E url flag d c :
  (scrape E url flag).1 = Return d →
  d !! "content" = Some (VStr c) →
  ∃ r t, http_get E url = Return r
    ∧ html_parser E (Requests.text r) = Return t
    ∧ (String.length (get_text Str.LF (decompose_all removed_tags t)) ≤ 5000
       → c = get_text Str.LF (decompose_all removed_tags t))
    ∧ (5000 < String.length (get_text Str.LF (decompose_all removed_tags t))
       → String.length c = 5000).
Proof.
  intros Hd Hc.
  destruct (scrape_content_inv E url flag d c Hd Hc)
    as (r & t & Hr & _ & Ht & _ & ->).
  exists r, t. change 5000 with max_content. split_and!; try done.
  - intros Hlen. by apply slice_to_all.
  - intros Hlen. rewrite slice_to_length. lia.
Qed.

(** X17: [content] never begins with whitespace: its first character, if
    any, is the first character of a stripped fragment. *)
Theorem scrape_content_no_leading_space E url flag d c ch rest :
  (scrape E url flag).1 = Return d →
  d !! "content" = Some (VStr c) →
  c = String ch rest →
  Str.isspace ch = false.
Proof.
  intros Hd Hc Hch.
  destruct (scrape_content_inv E url flag d c Hd Hc)
    as (r & t & _ & _ & _ & _ & ->).
  unfold get_text in Hch.
  pose proof (all_strings_stripped_trimmed (decompose_all removed_tags t))
    as Htrim.
  assert (Hne : Forall (λ f, f ≠ EmptyString)
                  (all_strings_stripped (decompose_all removed_tags t))).
  { apply Forall_forall. intros f Hf.
    by apply all_strings_stripped_interesting in Hf as [? _]. }
  destruct (all_strings_stripped (decompose_all removed_tags t))
    as [|f fs]; [done|].
  apply Forall_cons in Htrim as [[Hlead _] _].
  apply Forall_cons in Hne as [Hf _].
  destruct (join_head Str.LF f fs) as [tail Hjoin]. rewrite Hjoin in Hch.
  destruct f as [|c0 f]; [done|].
  change max_content with (S 4999) in Hch.
  rewrite app_String, slice_to_String in Hch. injection Hch as <- _.
  by apply (Hlead c0 f).
Qed.

(** X18: every record [scrape] returns, success or failure, holds the
    input URL under [url], whatever URL the response reports. *)
Theorem scrape_keeps_input_url E url flag d :
  (scrape E url flag).1 = Return d →
  d !! "url" = Some (VStr url).
Proof.
  intros Hd.
  destruct (scrape_run E url flag)
    as [(e & tr & _ & Hrun) | (r & t & _ & _ & _ & _ & Hrun)];
    rewrite Hrun in Hd; injection Hd as <-; [done|].
  unfold success. by destruct flag.
Qed.

End content_more.

(** ** The further properties at work on concrete runs *)

Section more_runs.
Import Bs4 IO Main Outcome Pruned Example Trace.

Lemma k3y_set : "k3y" ≠ EmptyString.
Proof. discriminate. Defined.

Lemma search_single_post_witness :
  getenv (env_search "k3y" (Json.JDict [("organic", Json.JList [hit])]))
    "SERPER_API_KEY" = Some "k3y"
  ∧ "k3y" ≠ EmptyString
  ∧ http_calls
      (search (env_search "k3y" (Json.JDict [("organic", Json.JList [hit])]))
         "rocq").2
    = [HttpPost "https://google.serper.dev/search" "k3y" "rocq" 2 10].
Proof.
  split; [reflexivity|]. split; [discriminate|].
  apply (search_single_post (env_search "k3y" _) "rocq" "k3y");
    [reflexivity | discriminate].
Defined.

Lemma search_logs_what_it_returns_witness :
  getenv (env_down "k3y") "SERPER_API_KEY" = Some "k3y"
  ∧ "k3y" ≠ EmptyString
  ∧ (search (env_down "k3y") "rocq").1
    = Return "Error making API request: Connection refused"
  ∧ stderr_lines (search (env_down "k3y") "rocq").2
    = ["Error making API request: Connection refused"].
Proof.
  split; [reflexivity|]. split; [discriminate|].
  exact (search_logs_what_it_returns (env_down "k3y") "rocq" "k3y"
           eq_refl k3y_set).
Defined.

Lemma search_http_error_status_witness :
  getenv (env_api_status "k3y" 500 "Internal Server Error")
    "SERPER_API_KEY" = Some "k3y"
  ∧ "k3y" ≠ EmptyString
  ∧ http_post (env_api_status "k3y" 500 "Internal Server Error")
      search_url "k3y" "rocq" 2
    = Return (Requests.Response 500 "Internal Server Error" search_url
                "{...}")
  ∧ error_status 500 = true
  ∧ (search (env_api_status "k3y" 500 "Internal Server Error") "rocq").1
    = Return ("Error making API request: 500 Server Error: "
              +:+ "Internal Server Error for url: "
              +:+ "https://google.serper.dev/search").
Proof.
  split_and!; [reflexivity | discriminate | reflexivity | reflexivity |].
  exact (search_http_error_status
           (env_api_status "k3y" 500 "Internal Server Error") "rocq" "k3y"
           (Requests.Response 500 "Internal Server Error" search_url "{...}")
           eq_refl k3y_set eq_refl eq_refl).
Defined.

Lemma search_malformed_json_witness :
  getenv (env_api_garbled "k3y"
            (Exc.Exn Exc.JSONDecodeError "Expecting value"))
    "SERPER_API_KEY" = Some "k3y"
  ∧ "k3y" ≠ EmptyString
  ∧ json_loads (env_api_garbled "k3y"
                  (Exc.Exn Exc.JSONDecodeError "Expecting value")) "<html>"
    = Raise (Exc.Exn Exc.JSONDecodeError "Expecting value")
  ∧ (search (env_api_garbled "k3y"
               (Exc.Exn Exc.JSONDecodeError "Expecting value")) "rocq").1
    = Return "Error parsing API response: Expecting value"
  ∧ (search (env_api_garbled "k3y"
               (Exc.Exn Exc.RequestsJSONDecodeError "Expecting value"))
       "rocq").1
    = Return "Error making API request: Expecting value".
Proof.
  split_and!; [reflexivity | discriminate | reflexivity | |].
  - exact (proj1 (search_malformed_json
                    (env_api_garbled "k3y" _) "rocq" "k3y"
                    (Requests.Response 200 "OK" search_url "<html>")
                    (Exc.Exn Exc.JSONDecodeError "Expecting value")
                    eq_refl k3y_set eq_refl eq_refl eq_refl) eq_refl).
  - exact (proj2 (search_malformed_json
                    (env_api_garbled "k3y" _) "rocq" "k3y"
                    (Requests.Response 200 "OK" search_url "<html>")
                    (Exc.Exn Exc.RequestsJSONDecodeError "Expecting value")
                    eq_refl k3y_set eq_refl eq_refl eq_refl) eq_refl).
Defined.

Lemma search_non_object_response_witness :
  getenv (env_search "k3y" (Json.JList [hit])) "SERPER_API_KEY"
  = Some "k3y"
  ∧ "k3y" ≠ EmptyString
  ∧ json_loads (env_search "k3y" (Json.JList [hit]))
      (Requests.text response_api) = Return (Json.JList [hit])
  ∧ (∀ kvs, Json.JList [hit] ≠ Json.JDict kvs)
  ∧ (search (env_search "k3y" (Json.JList [hit])) "rocq").1
    = Return "Error occurred during search: 'list' object has no attribute 'get'".
Proof.
  split_and!; [reflexivity | discriminate | reflexivity | discriminate |].
  apply (search_non_object_response (env_search "k3y" _) "rocq" "k3y"
           response_api (Json.JList [hit]));
    [reflexivity | discriminate | reflexivity.. | discriminate].
Defined.

Lemma search_organic_truthiness_witness :
  getenv (env_search "k3y" (Json.JDict [("organic", Json.JNull)]))
    "SERPER_API_KEY" = Some "k3y"
  ∧ "k3y" ≠ EmptyString
  ∧ json_loads (env_search "k3y" (Json.JDict [("organic", Json.JNull)]))
      (Requests.text response_api)
    = Return (Json.JDict [("organic", Json.JNull)])
  ∧ Json.lookup_key "organic" [("organic", Json.JNull)] = Some Json.JNull
  ∧ (search (env_search "k3y" (Json.JDict [("organic", Json.JNull)]))
       "rocq").1
    = Return "No results found for the query".
Proof.
  split_and!; [reflexivity | discriminate | reflexivity..|].
  exact (search_organic_truthiness (env_search "k3y" _) "rocq" "k3y"
           response_api [("organic", Json.JNull)] Json.JNull
           eq_refl k3y_set eq_refl eq_refl eq_refl eq_refl).
Defined.

Lemma scrape_logs_what_it_returns_witness :
  (scrape env_offline home true).1
  = Return (failure "Error fetching URL: " home unreachable_exn)
  ∧ failure_record (failure "Error fetching URL: " home unreachable_exn)
  ∧ ∃ msg, failure "Error fetching URL: " home unreachable_exn !! "error"
           = Some (VStr msg)
      ∧ stderr_lines (scrape env_offline home true).2 = [msg].
Proof.
  split; [reflexivity|]. split; [reflexivity|].
  apply (scrape_logs_what_it_returns env_offline home true); reflexivity.
Defined.

Lemma scrape_flag_only_adds_metadata_witness :
  (scrape (env_page 200 "OK" page) home true).1
  = Return (success home true 200 (decompose_all removed_tags page))
  ∧ (scrape (env_page 200 "OK" page) home false).1
    = Return (success home false 200 (decompose_all removed_tags page))
  ∧ delete "metadata"
      (success home true 200 (decompose_all removed_tags page))
    = success home false 200 (decompose_all removed_tags page).
Proof.
  split; [reflexivity|]. split; [reflexivity|].
  apply (scrape_flag_only_adds_metadata (env_page 200 "OK" page) home);
    reflexivity.
Defined.

Lemma scrape_failure_texts_witness :
  http_get env_offline home = Raise unreachable_exn
  ∧ Exc.isinstance unreachable_exn Exc.RequestException = true
  ∧ (scrape env_offline home true).1
    = Return (failure "Error fetching URL: " home unreachable_exn)
  ∧ html_parser (env_unparsable (Exc.Exn Exc.Exception "bad markup"))
      "<html>" = Raise (Exc.Exn Exc.Exception "bad markup")
  ∧ Exc.isinstance (Exc.Exn Exc.Exception "bad markup")
      Exc.RequestException = false
  ∧ (scrape (env_unparsable (Exc.Exn Exc.Exception "bad markup")) home
       true).1
    = Return (failure "Error scraping content: " home
                (Exc.Exn Exc.Exception "bad markup")).
Proof.
  split_and!; [reflexivity | reflexivity | | reflexivity | reflexivity |].
  - apply (proj1 (scrape_failure_texts env_offline home true));
      reflexivity.
  - apply (proj2 (scrape_failure_texts (env_unparsable _) home true)
             response_200); reflexivity.
Defined.

Lemma framed_page_distinct : NoDup (idents (descendants framed_page)).
Proof.
  apply (bool_decide_unpack (NoDup (idents (descendants framed_page)))).
  vm_compute. exact I.
Defined.

Lemma scrape_content_of_pruned_page_witness :
  http_get (env_page 200 "OK" framed_page) home = Return response_200
  ∧ error_status (Requests.status_code response_200) = false
  ∧ html_parser (env_page 200 "OK" framed_page)
      (Requests.text response_200) = Return framed_page
  ∧ NoDup (idents (descendants framed_page))
  ∧ decompose_all removed_tags framed_page
    = remove_tags removed_tags framed_page
  ∧ ∃ d, (scrape (env_page 200 "OK" framed_page) home true).1 = Return d
      ∧ d !! "content"
        = Some (VStr (Str.slice_to max_content
                        (get_text Str.LF
                           (remove_tags removed_tags framed_page)))).
Proof.
  split_and!; [reflexivity.. | apply framed_page_distinct | |];
    apply (scrape_content_of_pruned_page (env_page 200 "OK" framed_page)
             home true response_200 framed_page);
    try reflexivity; apply framed_page_distinct.
Defined.

Lemma pruning_keeps_visible_strings_witness :
  NoDup (idents (descendants framed_page))
  ∧ (Text NavigableString " Hello "
       ∈ descendants (decompose_all removed_tags framed_page)
     ↔ outside removed_tags framed_page (Text NavigableString " Hello ")).
Proof.
  split; [apply framed_page_distinct|].
  apply (pruning_keeps_visible_strings framed_page), framed_page_distinct.
Defined.

Lemma scrape_metadata_outside_removed_witness :
  (scrape (env_page 200 "OK" page) home true).1
  = Return (success home true 200 (decompose_all removed_tags page))
  ∧ success home true 200 (decompose_all removed_tags page) !! "metadata"
    = Some (VDict (extract_metadata (decompose_all removed_tags page)))
  ∧ extract_metadata (decompose_all removed_tags page) !! "title"
    = Some (Some "T")
  ∧ ∃ t i a cs,
      html_parser (env_page 200 "OK" page) "<html>" = Return t
      ∧ outside removed_tags t (Tag i "title" a cs)
      ∧ Some "T"
        = string_of
            (Tag i "title" a
               (extract_ids (idents (find_all removed_tags [] t)) cs)).
Proof.
  split_and!; [reflexivity..|].
  destruct (scrape_metadata_outside_removed (env_page 200 "OK" page) home
              (success home true 200 (decompose_all removed_tags page))
              (extract_metadata (decompose_all removed_tags page))
              "title" (Some "T") eq_refl eq_refl eq_refl)
    as (r & t & i & a & cs & Hr & Ht & Hcase).
  injection Hr as <-.
  destruct Hcase as [(_ & Hout & Hv) | [(Hk & _) | [(Hk & _)
                    | [(Hk & _) | (Hk & _)]]]]; try discriminate Hk.
  by exists t, i, a, cs.
Defined.


Lemma scrape_content_truncation_witness :
  (scrape (env_page 200 "OK" page) home false).1
  = Return (success home false 200 (decompose_all removed_tags page))
  ∧ success home false 200 (decompose_all removed_tags page) !! "content"
    = Some (VStr ("T" +:+ Str.LF +:+ "Hello"))
  ∧ ∃ r t, http_get (env_page 200 "OK" page) home = Return r
      ∧ html_parser (env_page 200 "OK" page) (Requests.text r) = Return t
      ∧ (String.length (get_text Str.LF (decompose_all removed_tags t))
         ≤ 5000
         → "T" +:+ Str.LF +:+ "Hello"
           = get_text Str.LF (decompose_all removed_tags t))
      ∧ (5000 < String.length
                  (get_text Str.LF (decompose_all removed_tags t))
         → String.length ("T" +:+ Str.LF +:+ "Hello") = 5000).
Proof.
  split; [reflexivity|]. split; [reflexivity|].
  apply (scrape_content_truncation (env_page 200 "OK" page) home false
           (success home false 200 (decompose_all removed_tags page)));
    reflexivity.
Defined.

Lemma scrape_content_no_leading_space_witness :
  (scrape (env_page 200 "OK" framed_page) home false).1
  = Return (success home false 200
              (decompose_all removed_tags framed_page))
  ∧ success home false 200 (decompose_all removed_tags framed_page)
    !! "content" = Some (VStr "Hello")
  ∧ Str.isspace "H" = false.
Proof.
  split; [reflexivity|]. split; [reflexivity|].
  apply (scrape_content_no_leading_space (env_page 200 "OK" framed_page)
           home false
           (success home false 200
              (decompose_all removed_tags framed_page))
           "Hello" "H"%char "ello"); reflexivity.
Defined.

Lemma scrape_keeps_input_url_witness :
  (scrape env_404 gone true).1
  = Return (failure "Error fetching URL: " gone (http_error response_404))
  ∧ failure "Error fetching URL: " gone (http_error response_404) !! "url"
    = Some (VStr gone).
Proof.
  split; [reflexivity|].
  apply (scrape_keeps_input_url env_404 gone true). reflexivity.
Defined.

End more_runs.
